(** * DayPlanner: the pomodoro timer component and the plan-extraction client

  A shallow embedding of [src/services/gemini.ts], which holds two units:

  - the React component [Timer] (state cells [timeLeft], [timerState],
    [mode]; the [stateRef] mirror; the reset effect; [handleTimerFinish];
    the one-second interval callback; [toggleTimer]; [skipTimer]);
  - the async function [parseNaturalLanguagePlan] with its helper
    [getClient].

  React state is modelled by explicit state passing: a handler is a
  function from the component to a result, the updated component and the
  list of outward calls it made (the chime, [onPomodoroComplete],
  [onTaskComplete]).  Events are processed one at a time; each is followed
  by the commit of the render it caused, which runs the effects. *)

From Stdlib Require Import ZArith List String Ascii Bool Lia Floats.
From Stdlib Require Import Decimal DecimalString DecimalZ DecimalPos.
Import ListNotations.
Local Open Scope Z_scope.
#[local] Set Warnings "-register-all".

(** ** The types imported from [../types] *)

Module Types.

(** [TimerState] enum, as the component uses it: [TimerState.IDLE],
    [TimerState.RUNNING], [TimerState.PAUSED]. *)
Inductive TimerState : Set := IDLE | RUNNING | PAUSED.

(** Modelled from the spec: the declaration of [Task] in [../types] is not
    among the sources.  The fields are the ones the component reads
    ([id], [title], [completedPomodoros], [expectedPomodoros]); the counts
    are JavaScript numbers holding integers. *)
Record Task : Set := mkTask {
  id : string;
  title : string;
  completedPomodoros : Z;
  expectedPomodoros : Z
}.

(** Modelled from the spec: the declaration of [Settings] in [../types] is
    not among the sources.  Durations are minutes. *)
Record Settings : Set := mkSettings {
  pomodoroDuration : Z;
  shortBreakDuration : Z;
  longBreakDuration : Z;
  autoStartBreaks : bool;
  autoStartPomodoros : bool
}.

Definition TimerState_eqb (a b : TimerState) : bool :=
  match a, b with
  | IDLE, IDLE | RUNNING, RUNNING | PAUSED, PAUSED => true
  | _, _ => false
  end.

(** The spec's data model: interval durations are positive integers. *)
Definition settings_ok (s : Settings) : Prop :=
  0 < pomodoroDuration s /\ 0 < shortBreakDuration s /\ 0 < longBreakDuration s.

End Types.
Export Types.

(** ** The [Timer] component *)

Module Timer.

(** [useState<'pomo' | 'short' | 'long'>]. *)
Inductive Mode : Set := pomo | short | long.

Definition Mode_eqb (a b : Mode) : bool :=
  match a, b with
  | pomo, pomo | short, short | long, long => true
  | _, _ => false
  end.

(** The five values a render sees, which are also the five fields of
    [stateRef.current]: three state cells and the two props the engine
    reads. *)
Record View : Set := mkView {
  timeLeft : Z;
  timerState : TimerState;
  mode : Mode;
  activeTask : option Task;
  settings : Settings
}.

(** The component instance: the committed values and the ref that the
    first effect keeps equal to them. *)
Record Component : Set := mkComponent {
  now : View;
  stateRef : View
}.

(** What the component does to the outside world. *)
Inductive Call : Set :=
| PlayChime
| OnPomodoroComplete (taskId : string)
| OnTaskComplete (taskId : string).

(** *** Handlers: state passing with a log of outward calls *)

Definition Handler (A : Type) : Type := Component -> A * Component * list Call.

Definition ret {A} (a : A) : Handler A := fun c => (a, c, []).

Definition bind {A B} (m : Handler A) (k : A -> Handler B) : Handler B :=
  fun c =>
    let '(a, c1, l1) := m c in
    let '(b, c2, l2) := k a c1 in
    (b, c2, l1 ++ l2).

Declare Scope handler_scope.
Delimit Scope handler_scope with handler.
Notation "x <- m ;; k" := (bind m (fun x => k))
  (at level 61, m at next level, right associativity) : handler_scope.
Notation "m ;; k" := (bind m (fun _ => k))
  (at level 61, right associativity) : handler_scope.
Local Open Scope handler_scope.

(** [stateRef.current], read at the time the handler runs. *)
Definition readRef : Handler View := fun c => (stateRef c, c, []).

Definition call (x : Call) : Handler unit := fun c => (tt, c, [x]).

Definition update (f : View -> View) : Handler unit :=
  fun c => (tt, mkComponent (f (now c)) (stateRef c), []).

(** State setters.  React applies the updates queued by one handler in
    order; a setter given a function applies it to the pending value. *)
Definition setTimeLeftWith (f : Z -> Z) : Handler unit :=
  update (fun v => mkView (f (timeLeft v)) (timerState v) (mode v) (activeTask v) (settings v)).

Definition setTimeLeft (t : Z) : Handler unit := setTimeLeftWith (fun _ => t).

Definition setTimerStateWith (f : TimerState -> TimerState) : Handler unit :=
  update (fun v => mkView (timeLeft v) (f (timerState v)) (mode v) (activeTask v) (settings v)).

Definition setTimerState (s : TimerState) : Handler unit := setTimerStateWith (fun _ => s).

Definition setMode (m : Mode) : Handler unit :=
  update (fun v => mkView (timeLeft v) (timerState v) m (activeTask v) (settings v)).

Definition when (b : bool) (h : Handler unit) : Handler unit :=
  if b then h else ret tt.

(** [new Audio(...).play().catch(() => {})]: fire and forget. *)
Definition playAudio : Handler unit := call PlayChime.

(** [(currentTask?.completedPomodoros || 0)]: [undefined] when there is no
    task, and [||] replaces a falsy number (zero) by [0]. *)
Definition completedOrZero (t : option Task) : Z :=
  match t with
  | Some t => if completedPomodoros t =? 0 then 0 else completedPomodoros t
  | None => 0
  end.

(** [handleTimerFinish], lines 114-141.  [%] is JavaScript's remainder,
    which truncates: [Z.rem]. *)
Definition handleTimerFinish : Handler unit :=
  ref <- readRef ;;
  let currentMode := mode ref in
  let currentTask := activeTask ref in
  let currentSettings := settings ref in
  setTimerState IDLE ;;
  playAudio ;;
  if Mode_eqb currentMode pomo then
    match currentTask with
    | Some t => call (OnPomodoroComplete (id t))
    | None => ret tt
    end ;;
    let completed := completedOrZero currentTask + 1 in
    let nextMode := if Z.rem completed 4 =? 0 then long else short in
    setMode nextMode ;;
    setTimeLeft ((if Mode_eqb nextMode long
                  then longBreakDuration currentSettings
                  else shortBreakDuration currentSettings) * 60) ;;
    when (autoStartBreaks currentSettings) (setTimerState RUNNING)
  else
    setMode pomo ;;
    setTimeLeft (pomodoroDuration currentSettings * 60) ;;
    when (autoStartPomodoros currentSettings) (setTimerState RUNNING).

(** The callback of [window.setInterval(..., 1000)], lines 144-153.  The
    effect that owns the interval re-creates it when [handleTimerFinish]
    changes identity; the callback is the same function every time. *)
Definition tick : Handler unit :=
  ref <- readRef ;;
  if TimerState_eqb (timerState ref) RUNNING then
    if timeLeft ref <=? 1 then handleTimerFinish
    else setTimeLeftWith (fun prev => prev - 1)
  else ret tt.

(** [toggleTimer], lines 158-160. *)
Definition toggleTimer : Handler unit :=
  setTimerStateWith (fun prev => if TimerState_eqb prev RUNNING then PAUSED else RUNNING).

(** [skipTimer], lines 162-164. *)
Definition skipTimer : Handler unit := handleTimerFinish.

(** The [onClick] of the "Complete Task" button, line 229; the caller
    passes the task the render showed. *)
Definition clickComplete (t : Task) : Handler unit := call (OnTaskComplete (id t)).

(** *** Effects *)

(** First effect, lines 101-103: [stateRef.current] takes the rendered
    values. *)
Definition syncRef (c : Component) : Component := mkComponent (now c) (now c).

(** Body of the reset effect, lines 107-111; it reads the props of the
    render it belongs to. *)
Definition resetEffect : Handler unit :=
  fun c =>
    match activeTask (now c) with
    | Some _ =>
        (setTimerState IDLE ;;
         setMode pomo ;;
         setTimeLeft (pomodoroDuration (settings (now c)) * 60)) c
    | None => ret tt c
    end.

(** [activeTask?.id]. *)
Definition taskId (t : option Task) : option string := option_map id t.

Definition optString_eqb (a b : option string) : bool :=
  match a, b with
  | Some x, Some y => String.eqb x y
  | None, None => true
  | _, _ => false
  end.

(** The dependency list [[activeTask?.id, settings.pomodoroDuration]]
    compared between two renders. *)
Definition resetDepsChanged (old new : View) : bool :=
  negb (optString_eqb (taskId (activeTask old)) (taskId (activeTask new))
        && (pomodoroDuration (settings old) =? pomodoroDuration (settings new))).

Definition run {A} (h : Handler A) (c : Component) : Component := snd (fst (h c)).
Definition calls {A} (h : Handler A) (c : Component) : list Call := snd (h c).

(** A handler followed by the commit of the render it caused. *)
Definition commit (h : Handler unit) (c : Component) : Component * list Call :=
  (syncRef (run h c), calls h c).

(** Mounting with the first props: the [useState] initial values, then
    both effects, then the render the reset effect caused. *)
Definition mount (t : option Task) (s : Settings) : Component :=
  let v := mkView (pomodoroDuration s * 60) IDLE pomo t s in
  let c := syncRef (mkComponent v v) in
  syncRef (run resetEffect c).

(** The parent renders the component with new props. *)
Definition receiveProps (t : option Task) (s : Settings) (c : Component) : Component :=
  let old := now c in
  let new := mkView (timeLeft old) (timerState old) (mode old) t s in
  let c1 := syncRef (mkComponent new (stateRef c)) in
  if resetDepsChanged old new then syncRef (run resetEffect c1) else c1.

(** *** Events *)

Inductive Event : Set :=
| Tick
| ClickToggle
| ClickSkip
| ClickComplete
| Props (t : option Task) (s : Settings).

(** The buttons exist only in the render with an active task (the early
    return of lines 172-181); the interval runs in either case. *)
Definition dispatch (e : Event) (c : Component) : option (Component * list Call) :=
  match e with
  | Tick => Some (commit tick c)
  | ClickToggle =>
      match activeTask (now c) with
      | Some _ => Some (commit toggleTimer c)
      | None => None
      end
  | ClickSkip =>
      match activeTask (now c) with
      | Some _ => Some (commit skipTimer c)
      | None => None
      end
  | ClickComplete =>
      match activeTask (now c) with
      | Some t => Some (commit (clickComplete t) c)
      | None => None
      end
  | Props t s => Some (receiveProps t s c, [])
  end.

Fixpoint runEvents (es : list Event) (c : Component) : option (Component * list Call) :=
  match es with
  | [] => Some (c, [])
  | e :: es' =>
      match dispatch e c with
      | Some (c1, l1) =>
          match runEvents es' c1 with
          | Some (c2, l2) => Some (c2, l1 ++ l2)
          | None => None
          end
      | None => None
      end
  end.

(** The engine snapshot of the spec: [(timeLeftSeconds, state, mode)]. *)
Definition snapshot (c : Component) : Z * TimerState * Mode :=
  (timeLeft (now c), timerState (now c), mode (now c)).

(** [durationCurrent], lines 183-185. *)
Definition duration (m : Mode) (s : Settings) : Z :=
  match m with
  | pomo => pomodoroDuration s
  | short => shortBreakDuration s
  | long => longBreakDuration s
  end.

End Timer.

(** ** What the component shows *)

Module TimerView.
Import Timer.
Local Open Scope string_scope.

(** [Number.prototype.toString] on an integer: decimal digits, with a
    minus sign below zero.  (Numbers of the size of a time in seconds; the
    exponent notation of JavaScript starts at [1e21].) *)
Definition toString (z : Z) : string := NilZero.string_of_int (Z.to_int z).

(** The first [n] characters of [padString] repeated, continuing a copy of
    which [rest] is left. *)
Fixpoint filler (n : nat) (padString rest : string) : string :=
  match n with
  | O => ""
  | S n' =>
      match rest with
      | String a r => String a (filler n' padString r)
      | EmptyString =>
          match padString with
          | String a r => String a (filler n' padString r)
          | EmptyString => ""
          end
      end
  end.

(** [String.prototype.padStart(targetLength, padString)]: the string itself
    when it is long enough (or the pad is empty), and otherwise the pad
    repeated and cut to the missing length, then the string. *)
Definition padStart (targetLength : nat) (padString s : string) : string :=
  if Nat.leb targetLength (String.length s) then s
  else filler (targetLength - String.length s) padString padString ++ s.

(** [formatTimeDisplay], lines 166-170.  [Math.floor(seconds / 60)] on an
    integer is the floor quotient, [%] the truncating remainder. *)
Definition formatTimeDisplay (seconds : Z) : string :=
  let m := seconds / 60 in
  let s := Z.rem seconds 60 in
  padStart 2 "0" (toString m) ++ ":" ++ padStart 2 "0" (toString s).

(** The caption of the first button, line 218. *)
Definition toggleLabel (c : Component) : string :=
  if TimerState_eqb (timerState (now c)) RUNNING then "Pause" else "Start".

(** The badge, line 199. *)
Definition modeLabel (c : Component) : string :=
  if Mode_eqb (mode (now c)) pomo then "Focus Time"
  else if Mode_eqb (mode (now c)) short then "Short Break" else "Long Break".

(** The clock, line 208. *)
Definition clockText (c : Component) : string := formatTimeDisplay (timeLeft (now c)).

End TimerView.

(** ** The plan-extraction client *)

Module Plan.

Local Open Scope string_scope.

(** A value produced by [JSON.parse].  Numbers are binary64, as in
    JavaScript; an object lists its properties with distinct keys. *)
Inductive Json : Set :=
| JNull
| JBool (b : bool)
| JNumber (x : float)
| JString (s : string)
| JArray (items : list Json)
| JObject (properties : list (string * Json)).

(** What a [throw] carries. *)
Inductive Exn : Set :=
| SyntaxError (msg : string)
| TypeError (msg : string)
| ApiError (msg : string).

Inductive Outcome (A : Type) : Type :=
| Returns (a : A)
| Throws (e : Exn).
Arguments Returns {A} a.
Arguments Throws {A} e.

(** The [responseSchema] literal of lines 40-56. *)
Inductive Schema : Set :=
| TypeSTRING
| TypeNUMBER
| TypeARRAY (items : Schema)
| TypeOBJECT (properties : list (string * Schema)) (required : list string).

Record Config : Set := mkConfig {
  responseMimeType : string;
  responseSchema : Schema
}.

(** The argument of [ai.models.generateContent], with the key the client
    was built from. *)
Record Request : Set := mkRequest {
  apiKey : string;
  model : string;
  contents : string;
  config : Config
}.

(** The part of the response the function reads: the [text] accessor, which
    is a string or [undefined]. *)
Record Response : Set := mkResponse {
  text : option string
}.

(** [interface AIResponse], lines 14-16.  The static type of [tasks] is
    [Partial<Task>[]]; at run time it is whatever value the function puts
    there. *)
Record AIResponse : Set := mkAIResponse {
  tasks : Json
}.

(** What lies outside the function: the environment variable, the hosted
    model, and the two platform functions it calls. *)
Record World : Type := mkWorld {
  API_KEY : option string;
  generateContent : Request -> Outcome Response;
  JSON_parse : string -> Outcome Json;
  toLocaleTimeString : Z -> string
}.

(** Observable actions, in the order they happen. *)
Inductive Action : Set :=
| ConsoleWarn (msg : string)
| ConsoleError (msg : string) (e : Exn)
| ExternalCall (req : Request).

(** *** Computations that may throw and that leave a trace *)

Definition Eff (A : Type) : Type := Outcome A * list Action.

Definition pure {A} (a : A) : Eff A := (Returns a, []).

Definition throw {A} (e : Exn) : Eff A := (Throws e, []).

Definition emit (a : Action) : Eff unit := (Returns tt, [a]).

Definition lift {A} (o : Outcome A) : Eff A := (o, []).

Definition andThen {A B} (m : Eff A) (k : A -> Eff B) : Eff B :=
  match m with
  | (Returns a, l1) => let '(o, l2) := k a in (o, (l1 ++ l2)%list)
  | (Throws e, l1) => (Throws e, l1)
  end.

(** [try { m } catch (error) { h error }]. *)
Definition tryCatch {A} (m : Eff A) (h : Exn -> Eff A) : Eff A :=
  match m with
  | (Returns a, l1) => (Returns a, l1)
  | (Throws e, l1) => let '(o, l2) := h e in (o, (l1 ++ l2)%list)
  end.

Declare Scope eff_scope.
Delimit Scope eff_scope with eff.
Notation "x <- m ;; k" := (andThen m (fun x => k))
  (at level 61, m at next level, right associativity) : eff_scope.
Notation "m ;; k" := (andThen m (fun _ => k))
  (at level 61, right associativity) : eff_scope.
Local Open Scope eff_scope.

(** *** JavaScript operators the function uses *)

(** Truthiness of a value; [None] is [undefined]. *)
Definition truthy (v : option Json) : bool :=
  match v with
  | None => false
  | Some JNull => false
  | Some (JBool b) => b
  | Some (JNumber x) => negb (PrimFloat.is_zero x || PrimFloat.is_nan x)
  | Some (JString s) => negb (String.eqb s "")
  | Some (JArray _) => true
  | Some (JObject _) => true
  end.

Fixpoint lookup (k : string) (ps : list (string * Json)) : option Json :=
  match ps with
  | [] => None
  | (k', v) :: ps' => if String.eqb k k' then Some v else lookup k ps'
  end.

(** [v.name]: a [TypeError] on [null], the own property of an object, and
    [undefined] on the other values (none has a property called [tasks]). *)
Definition getProperty (v : Json) (name : string) : Eff (option Json) :=
  match v with
  | JNull => throw (TypeError "Cannot read properties of null")
  | JObject ps => pure (lookup name ps)
  | _ => pure None
  end.

(** [s || d] on a string that may be [undefined]. *)
Definition stringOr (s : option string) (d : string) : string :=
  match s with
  | Some x => if String.eqb x "" then d else x
  | None => d
  end.

(** [v || d]. *)
Definition valueOr (v : option Json) (d : Json) : Json :=
  match v with
  | Some x => if truthy v then x else d
  | None => d
  end.

(** *** The code *)

(** The client object: [new GoogleGenAI({ apiKey })]. *)
Record GoogleGenAI : Set := mkGoogleGenAI {
  clientKey : string
}.

(** [!apiKey]. *)
Definition missing (k : option string) : bool :=
  match k with
  | Some x => String.eqb x ""
  | None => true
  end.

(** [getClient], lines 5-12. *)
Definition getClient (w : World) : Eff (option GoogleGenAI) :=
  let apiKey := API_KEY w in
  match apiKey with
  | Some k =>
      if missing apiKey then
        emit (ConsoleWarn "API_KEY not found in environment variables") ;;
        pure None
      else pure (Some (mkGoogleGenAI k))
  | None =>
      emit (ConsoleWarn "API_KEY not found in environment variables") ;;
      pure None
  end.

Definition dquote : string := String (ascii_of_nat 34) EmptyString.

(** The template literal of lines 24-32. *)
Definition promptOf (nowStr input : string) : string :=
  "
    I am a day planner. The current time is " ++ nowStr ++ ".
    The user description is: " ++ dquote ++ input ++ dquote ++ ".
    
    Return a JSON object with:
    1. " ++ dquote ++ "tasks" ++ dquote ++ ": Array of tasks. Each has 'title' (string), 'duration' (number minutes), 'notes' (string).
    
    Estimate durations if not specified.
    ".

Definition planConfig : Config :=
  mkConfig "application/json"
    (TypeOBJECT
       [("tasks",
         TypeARRAY
           (TypeOBJECT
              [("title", TypeSTRING); ("duration", TypeNUMBER); ("notes", TypeSTRING)]
              ["title"; "duration"]))]
       []).

Definition requestOf (ai : GoogleGenAI) (prompt : string) : Request :=
  mkRequest (clientKey ai) "gemini-2.5-flash" prompt planConfig.

(** [await ai.models.generateContent(...)]: the call is recorded, then its
    result or its rejection comes back. *)
Definition callModel (w : World) (req : Request) : Eff Response :=
  emit (ExternalCall req) ;;
  lift (generateContent w req).

Definition noTasks : AIResponse := mkAIResponse (JArray []).

(** [parseNaturalLanguagePlan], lines 18-69.  The promise the async function
    returns resolves on [Returns] and rejects on [Throws]. *)
Definition parseNaturalLanguagePlan (w : World) (input : string) (baseTime : Z)
  : Eff AIResponse :=
  ai <- getClient w ;;
  match ai with
  | None => pure noTasks
  | Some ai =>
      let nowStr := toLocaleTimeString w baseTime in
      let prompt := promptOf nowStr input in
      tryCatch
        (response <- callModel w (requestOf ai prompt) ;;
         result <- lift (JSON_parse w (stringOr (text response) "{}")) ;;
         resultTasks <- getProperty result "tasks" ;;
         pure (mkAIResponse (valueOr resultTasks (JArray []))))
        (fun error =>
           emit (ConsoleError "Gemini API Error:" error) ;;
           pure noTasks)
  end.

End Plan.

(** ** Vocabulary of the statements *)

Module TimerSpec.
Import Timer.

(** The ref mirrors the committed values, which is the case between two
    events. *)
Definition synced (c : Component) : Prop := stateRef c = now c.

(** The count the spec calls [completedCount]: the active task's
    [completedPomodoros] plus one, and [0 + 1] without a task. *)
Definition completedCount (t : option Task) : Z :=
  match t with
  | Some t => completedPomodoros t + 1
  | None => 0 + 1
  end.

(** The two ways an interval finishes: the skip button, or a tick that
    finds the timer running with at most one second left. *)
Inductive finishes : Handler unit -> Component -> Prop :=
| finishes_skip c : finishes skipTimer c
| finishes_expiry c :
    timerState (now c) = RUNNING -> timeLeft (now c) <= 1 -> finishes tick c.

Definition isCompletion (x : Call) : bool :=
  match x with
  | PlayChime => false
  | OnPomodoroComplete _ | OnTaskComplete _ => true
  end.

(** The spec's invariant on the time left. *)
Definition timeLeftInRange (c : Component) : Prop :=
  0 <= timeLeft (now c) <= duration (mode (now c)) (settings (now c)) * 60.

Definition sameDurations (s s' : Settings) : Prop :=
  pomodoroDuration s' = pomodoroDuration s /\
  shortBreakDuration s' = shortBreakDuration s /\
  longBreakDuration s' = longBreakDuration s.

(** An event that leaves the three durations of [s] as they are: any event
    but new props whose settings differ from [s] in a duration. *)
Definition keepsDurations (s : Settings) (e : Event) : Prop :=
  match e with
  | Props _ s' => sameDurations s s'
  | _ => True
  end.

(** The invariant of the run with fixed durations: the ref is current, the
    durations are those of [s], and the time left is in range. *)
Definition fixedDurationsInv (s : Settings) (c : Component) : Prop :=
  synced c /\ sameDurations s (settings (now c)) /\ timeLeftInRange c.

(** The invariant of any run: the ref is current, the settings are
    well formed, and the time left is not negative. *)
Definition nonNegativeInv (c : Component) : Prop :=
  synced c /\ settings_ok (settings (now c)) /\ 0 <= timeLeft (now c).

Definition settingsOf (e : Event) : option Settings :=
  match e with
  | Props _ s => Some s
  | _ => None
  end.

(** Every settings object an event brings is well formed. *)
Definition bringsGoodSettings (e : Event) : Prop :=
  forall s', settingsOf e = Some s' -> settings_ok s'.

(** A component reached from a mount by a sequence of events, all settings
    being well formed. *)
Definition reachable (c : Component) : Prop :=
  exists t s es l,
    settings_ok s /\
    Forall bringsGoodSettings es /\
    runEvents es (mount t s) = Some (c, l).

(** The render of [Props t s'] resets the engine: a dependency of the
    reset effect changed and the new active task exists. *)
Definition resets (t : option Task) (s' : Settings) (c : Component) : bool :=
  match t with
  | Some _ =>
      resetDepsChanged (now c)
        (mkView (timeLeft (now c)) (timerState (now c)) (mode (now c)) t s')
  | None => false
  end.

(** A settings change fits the interval in progress: it resets the engine,
    or the time left is within the new duration of the current mode.  Every
    other event fits. *)
Definition renderFits (e : Event) (c : Component) : Prop :=
  match e with
  | Props t s' =>
      resets t s' c = true \/
      timeLeft (now c) <= duration (mode (now c)) s' * 60
  | _ => True
  end.

(** Every render of a run fits the component it arrives at. *)
Fixpoint rendersFit (es : list Event) (c : Component) : Prop :=
  match es with
  | [] => True
  | e :: es' =>
      renderFits e c /\
      match dispatch e c with
      | Some (c1, _) => rendersFit es' c1
      | None => True
      end
  end.

(** The invariant of such a run: the ref is current, the settings are well
    formed, and the time left is in range. *)
Definition rangeInv (c : Component) : Prop :=
  synced c /\ settings_ok (settings (now c)) /\ timeLeftInRange c.

End TimerSpec.

(** ** Concrete data for the examples *)

Module Samples.
Import Timer.
Local Open Scope string_scope.

(** The settings of the spec's end-to-end scenario. *)
Definition settings25 : Settings := mkSettings 25 5 15 true false.

(** The same with a one-minute short break. *)
Definition settingsShort1 : Settings := mkSettings 25 1 15 true false.

Definition report : Task := mkTask "t1" "Write report" 3 4.
Definition email : Task := mkTask "t2" "Answer email" 0 1.

Definition viewOf (tl : Z) (st : TimerState) (m : Mode) (t : option Task) : View :=
  mkView tl st m t settings25.

Definition synchronized (v : View) : Component := mkComponent v v.

End Samples.

Module PlanSpec.
Import Plan.

(** The request the function sends for a key, an input and a time. *)
Definition sentRequest (w : World) (k input : string) (baseTime : Z) : Request :=
  requestOf (mkGoogleGenAI k) (promptOf (toLocaleTimeString w baseTime) input).

Definition isExternalCall (a : Action) : bool :=
  match a with
  | ExternalCall _ => true
  | _ => false
  end.

(** The awaited result: the value the promise resolves to, or the reason it
    rejects with. *)
Definition settled {A} (m : Eff A) : Outcome A := fst m.

Definition trace {A} (m : Eff A) : list Action := snd m.

End PlanSpec.

Module PlanSamples.
Import Plan.
Local Open Scope string_scope.

(** A parser standing in for [JSON.parse] on the three texts the examples
    use; every other text is rejected. *)
Definition tableParse (s : string) : Outcome Json :=
  if String.eqb s "{}" then Returns (JObject [])
  else if String.eqb s "null" then Returns JNull
  else if String.eqb s "PLAN" then
    Returns (JObject [("tasks",
                       JArray [JObject [("notes", JNumber 3)];
                               JObject [("title", JBool true); ("duration", JString "soon")];
                               JString "walk"])])
  else Throws (SyntaxError "Unexpected token").

Definition clock (t : Z) : string := "9:00:00 AM".

(** No credential in the environment; the model would answer if asked. *)
Definition noKey : World :=
  mkWorld None (fun _ => Returns (mkResponse (Some "PLAN"))) tableParse clock.

(** An empty credential. *)
Definition emptyKey : World :=
  mkWorld (Some "") (fun _ => Returns (mkResponse (Some "PLAN"))) tableParse clock.

(** The service rejects the call. *)
Definition offline : World :=
  mkWorld (Some "k") (fun _ => Throws (ApiError "503")) tableParse clock.

(** The body is not JSON. *)
Definition garbled : World :=
  mkWorld (Some "k") (fun _ => Returns (mkResponse (Some "<html>"))) tableParse clock.

(** The body is an object without [tasks] (here: no text at all, so the
    code parses its default). *)
Definition silent : World :=
  mkWorld (Some "k") (fun _ => Returns (mkResponse None)) tableParse clock.

(** The body is the JSON literal [null]. *)
Definition nullBody : World :=
  mkWorld (Some "k") (fun _ => Returns (mkResponse (Some "null"))) tableParse clock.

(** The body carries a [tasks] array whose elements do not fit the schema. *)
Definition answering : World :=
  mkWorld (Some "k") (fun _ => Returns (mkResponse (Some "PLAN"))) tableParse clock.

(** The body is an object whose [tasks] is [null]. *)
Definition nullTasks : World :=
  mkWorld (Some "k") (fun _ => Returns (mkResponse (Some "NULLTASKS")))
          (fun s => if String.eqb s "NULLTASKS" then Returns (JObject [("tasks", JNull)])
                    else tableParse s)
          clock.

Definition looseTasks : Json :=
  JArray [JObject [("notes", JNumber 3)];
          JObject [("title", JBool true); ("duration", JString "soon")];
          JString "walk"].

End PlanSamples.

(** ** Vocabulary of the further statements *)

Module MoreSpec.
Import Timer TimerSpec TimerView Plan.
Local Open Scope string_scope.

(** The component [k] seconds into a countdown: [k] off the time left, the
    ref current. *)
Definition elapsed (c : Component) (k : Z) : Component :=
  let v := mkView (timeLeft (now c) - k) (timerState (now c)) (mode (now c))
                  (activeTask (now c)) (settings (now c)) in
  mkComponent v v.

Definition isChime (x : Call) : bool :=
  match x with PlayChime => true | _ => false end.

Definition isPomodoroComplete (x : Call) : bool :=
  match x with OnPomodoroComplete _ => true | _ => false end.

Definition isTaskComplete (x : Call) : bool :=
  match x with OnTaskComplete _ => true | _ => false end.

Definition isClickComplete (e : Event) : bool :=
  match e with ClickComplete => true | _ => false end.

(** An event that is not a render with an active task. *)
Definition bringsNoTask (e : Event) : Prop :=
  match e with
  | Props (Some _) _ => False
  | _ => True
  end.

(** The invariant behind the clock never reading zero. *)
Definition positiveInv (c : Component) : Prop :=
  synced c /\ settings_ok (settings (now c)) /\ 1 <= timeLeft (now c).

(** The invariant of the run with fixed durations, with the idle case: an
    idle engine stands at the full length of its mode. *)
Definition idleFullInv (s : Settings) (c : Component) : Prop :=
  fixedDurationsInv s c /\
  (timerState (now c) = IDLE ->
   timeLeft (now c) = duration (mode (now c)) (settings (now c)) * 60).

(** Reading a displayed time back. *)
Fixpoint hasColon (s : string) : bool :=
  match s with
  | EmptyString => false
  | String a r => Ascii.eqb a ":" || hasColon r
  end.

Fixpoint beforeColon (s : string) : string :=
  match s with
  | EmptyString => EmptyString
  | String a r => if Ascii.eqb a ":" then EmptyString else String a (beforeColon r)
  end.

Fixpoint afterColon (s : string) : string :=
  match s with
  | EmptyString => EmptyString
  | String a r => if Ascii.eqb a ":" then r else afterColon r
  end.

Definition valueOf (s : string) : Z :=
  match NilEmpty.uint_of_string s with
  | Some d => Z.of_uint d
  | None => -1
  end.

Definition secondsShown (text : string) : Z :=
  valueOf (beforeColon text) * 60 + valueOf (afterColon text).

(** [v.tasks] for a value that is not [null]. *)
Definition tasksOf (v : Json) : option Json :=
  match v with
  | JObject ps => lookup "tasks" ps
  | _ => None
  end.

End MoreSpec.

(** ** The timer: proofs *)

Module TimerFacts.
Import Timer TimerSpec.
Local Open Scope handler_scope.

Lemma completedOrZero_plus_one t : completedOrZero t + 1 = completedCount t.
Proof.
  destruct t as [t|]; simpl; [|reflexivity].
  destruct (Z.eqb_spec (completedPomodoros t) 0) as [E|E]; [rewrite E|]; reflexivity.
Qed.

(** On a synced component a tick that expires is [handleTimerFinish]. *)
Lemma finishes_is_handleTimerFinish h c :
  synced c -> finishes h c -> h c = handleTimerFinish c.
Proof.
  intros S F. destruct F as [c|c R T]; [reflexivity|].
  unfold tick, bind, readRef. rewrite S, R. simpl.
  apply Z.leb_le in T. rewrite T.
  destruct (handleTimerFinish c) as [[[] c'] l]. reflexivity.
Qed.

(** [handleTimerFinish] after a Focus interval, in closed form. *)
Lemma handleTimerFinish_pomo c :
  mode (stateRef c) = pomo ->
  let s := settings (stateRef c) in
  let t := activeTask (stateRef c) in
  let next := if Z.rem (completedCount t) 4 =? 0 then long else short in
  handleTimerFinish c =
    (tt,
     mkComponent
       (mkView (duration next s * 60)
               (if autoStartBreaks s then RUNNING else IDLE)
               next (activeTask (now c)) (settings (now c)))
       (stateRef c),
     PlayChime :: match t with Some t => [OnPomodoroComplete (id t)] | None => [] end).
Proof.
  intros M s t next. unfold handleTimerFinish, bind, readRef. rewrite M. simpl.
  fold s t. rewrite completedOrZero_plus_one. subst next.
  destruct t, (Z.rem _ 4 =? 0), (autoStartBreaks s); reflexivity.
Qed.

(** [handleTimerFinish] after a break, in closed form. *)
Lemma handleTimerFinish_break c :
  mode (stateRef c) <> pomo ->
  let s := settings (stateRef c) in
  handleTimerFinish c =
    (tt,
     mkComponent
       (mkView (pomodoroDuration s * 60)
               (if autoStartPomodoros s then RUNNING else IDLE)
               pomo (activeTask (now c)) (settings (now c)))
       (stateRef c),
     [PlayChime]).
Proof.
  intros M s. unfold handleTimerFinish, bind, readRef.
  destruct (mode (stateRef c)) eqn:E; [congruence| |]; simpl; fold s;
    destruct (autoStartPomodoros s); reflexivity.
Qed.

(** C1. When a Focus interval finishes, by skip or by the expiring tick, the
    next mode is [long] if [completedCount % 4 = 0] and [short] otherwise,
    the time left is that mode's configured duration times 60, and the state
    is [RUNNING] if [autoStartBreaks] and [IDLE] otherwise. *)
Theorem focus_finish_starts_break h c :
  synced c ->
  finishes h c ->
  mode (now c) = pomo ->
  let s := settings (now c) in
  let next := if Z.rem (completedCount (activeTask (now c))) 4 =? 0 then long else short in
  mode (now (run h c)) = next /\
  timeLeft (now (run h c)) = duration next s * 60 /\
  timerState (now (run h c)) = (if autoStartBreaks s then RUNNING else IDLE).
Proof.
  intros S F M s next. unfold run.
  rewrite (finishes_is_handleTimerFinish h c S F).
  rewrite handleTimerFinish_pomo by (rewrite S; exact M).
  subst s next. rewrite S. simpl. repeat split.
Qed.

Lemma focus_finish_starts_break_witness :
  let c := Samples.synchronized (Samples.viewOf 1 RUNNING pomo (Some Samples.report)) in
  mode (now (run tick c)) = long /\
  timeLeft (now (run tick c)) = 900 /\
  timerState (now (run tick c)) = RUNNING.
Proof.
  apply (focus_finish_starts_break tick
           (Samples.synchronized (Samples.viewOf 1 RUNNING pomo (Some Samples.report)))).
  - reflexivity.
  - apply finishes_expiry; simpl; [reflexivity | lia].
  - reflexivity.
Defined.

(** C5. When a break finishes, by skip or by the expiring tick, the next
    mode is [pomo], the time left is [pomodoroDuration * 60], the state is
    [RUNNING] if [autoStartPomodoros] and [IDLE] otherwise, and the only
    outward call is the chime: no completion callback. *)
Theorem break_finish_starts_focus h c :
  synced c ->
  finishes h c ->
  mode (now c) <> pomo ->
  let s := settings (now c) in
  mode (now (run h c)) = pomo /\
  timeLeft (now (run h c)) = pomodoroDuration s * 60 /\
  timerState (now (run h c)) = (if autoStartPomodoros s then RUNNING else IDLE) /\
  calls h c = [PlayChime].
Proof.
  intros S F M s. unfold run, calls.
  rewrite (finishes_is_handleTimerFinish h c S F).
  rewrite handleTimerFinish_break by (rewrite S; exact M).
  subst s. rewrite S. simpl. repeat split.
Qed.

Lemma break_finish_starts_focus_witness :
  let c := Samples.synchronized (Samples.viewOf 40 PAUSED long (Some Samples.report)) in
  mode (now (run skipTimer c)) = pomo /\
  timeLeft (now (run skipTimer c)) = 1500 /\
  timerState (now (run skipTimer c)) = IDLE /\
  calls skipTimer c = [PlayChime].
Proof.
  apply (break_finish_starts_focus skipTimer
           (Samples.synchronized (Samples.viewOf 40 PAUSED long (Some Samples.report)))).
  - reflexivity.
  - apply finishes_skip.
  - discriminate.
Defined.

(** C9. If a Focus interval finishes while there is no active task,
    [onPomodoroComplete] is not called (the chime is the only call), the
    count is [0 + 1], and the next mode is [short] with
    [shortBreakDuration * 60] seconds. *)
Theorem focus_finish_without_task h c :
  synced c ->
  finishes h c ->
  mode (now c) = pomo ->
  activeTask (now c) = None ->
  calls h c = [PlayChime] /\
  completedCount (activeTask (now c)) = 1 /\
  mode (now (run h c)) = short /\
  timeLeft (now (run h c)) = shortBreakDuration (settings (now c)) * 60.
Proof.
  intros S F M T. unfold run, calls.
  rewrite (finishes_is_handleTimerFinish h c S F).
  rewrite handleTimerFinish_pomo by (rewrite S; exact M).
  rewrite S, T. simpl. repeat split.
Qed.

Lemma focus_finish_without_task_witness :
  let c := Samples.synchronized (Samples.viewOf 0 RUNNING pomo None) in
  calls tick c = [PlayChime] /\
  completedCount (activeTask (now c)) = 1 /\
  mode (now (run tick c)) = short /\
  timeLeft (now (run tick c)) = shortBreakDuration (settings (now c)) * 60.
Proof.
  apply (focus_finish_without_task tick
           (Samples.synchronized (Samples.viewOf 0 RUNNING pomo None))).
  - reflexivity.
  - apply finishes_expiry; simpl; [reflexivity | lia].
  - reflexivity.
  - reflexivity.
Defined.

(** [handleTimerFinish] overwrites the three state cells from the mode, the
    task and the settings it reads; the state and the time it started from
    play no part. *)
Lemma handleTimerFinish_depends_on c1 c2 :
  mode (stateRef c1) = mode (stateRef c2) ->
  activeTask (stateRef c1) = activeTask (stateRef c2) ->
  settings (stateRef c1) = settings (stateRef c2) ->
  snapshot (run handleTimerFinish c1) = snapshot (run handleTimerFinish c2) /\
  calls handleTimerFinish c1 = calls handleTimerFinish c2.
Proof.
  intros M T S. unfold run, calls, snapshot.
  destruct (mode (stateRef c1)) eqn:E.
  - rewrite (handleTimerFinish_pomo c1 E).
    rewrite (handleTimerFinish_pomo c2) by congruence.
    simpl. rewrite T, S. split; reflexivity.
  - rewrite (handleTimerFinish_break c1) by congruence.
    rewrite (handleTimerFinish_break c2) by congruence.
    simpl. rewrite S. split; reflexivity.
  - rewrite (handleTimerFinish_break c1) by congruence.
    rewrite (handleTimerFinish_break c2) by congruence.
    simpl. rewrite S. split; reflexivity.
Qed.

(** C3. [skipTimer] is [handleTimerFinish] whatever the state ([IDLE],
    [PAUSED] or [RUNNING]) and the time left of the component it is pressed
    on: it gives the snapshot (and the calls) that the expiring tick gives
    while [RUNNING], for the same mode, task and settings.  In particular
    this holds for a skip while [PAUSED]. *)
Theorem skip_from_any_state_same_as_expiry c1 c2 :
  synced c1 -> synced c2 ->
  mode (now c1) = mode (now c2) ->
  activeTask (now c1) = activeTask (now c2) ->
  settings (now c1) = settings (now c2) ->
  timerState (now c2) = RUNNING ->
  timeLeft (now c2) <= 1 ->
  skipTimer c1 = handleTimerFinish c1 /\
  snapshot (run skipTimer c1) = snapshot (run tick c2) /\
  calls skipTimer c1 = calls tick c2.
Proof.
  intros S1 S2 M T S R L. split; [reflexivity|].
  assert (E : tick c2 = handleTimerFinish c2)
    by (apply finishes_is_handleTimerFinish; [exact S2 | constructor; assumption]).
  unfold run, calls in *. rewrite E.
  apply (handleTimerFinish_depends_on c1 c2); rewrite S1, S2; assumption.
Qed.

Lemma skip_from_any_state_same_as_expiry_witness :
  let paused := Samples.synchronized (Samples.viewOf 777 PAUSED pomo (Some Samples.report)) in
  let idle := Samples.synchronized (Samples.viewOf 1500 IDLE pomo (Some Samples.report)) in
  let running := Samples.synchronized (Samples.viewOf 42 RUNNING pomo (Some Samples.report)) in
  let expiring := Samples.synchronized (Samples.viewOf 1 RUNNING pomo (Some Samples.report)) in
  (skipTimer paused = handleTimerFinish paused /\
   snapshot (run skipTimer paused) = snapshot (run tick expiring) /\
   calls skipTimer paused = calls tick expiring) /\
  (skipTimer idle = handleTimerFinish idle /\
   snapshot (run skipTimer idle) = snapshot (run tick expiring) /\
   calls skipTimer idle = calls tick expiring) /\
  (skipTimer running = handleTimerFinish running /\
   snapshot (run skipTimer running) = snapshot (run tick expiring) /\
   calls skipTimer running = calls tick expiring).
Proof.
  split; [|split].
  - apply (skip_from_any_state_same_as_expiry
             (Samples.synchronized (Samples.viewOf 777 PAUSED pomo (Some Samples.report)))
             (Samples.synchronized (Samples.viewOf 1 RUNNING pomo (Some Samples.report))));
      first [reflexivity | simpl; lia].
  - apply (skip_from_any_state_same_as_expiry
             (Samples.synchronized (Samples.viewOf 1500 IDLE pomo (Some Samples.report)))
             (Samples.synchronized (Samples.viewOf 1 RUNNING pomo (Some Samples.report))));
      first [reflexivity | simpl; lia].
  - apply (skip_from_any_state_same_as_expiry
             (Samples.synchronized (Samples.viewOf 42 RUNNING pomo (Some Samples.report)))
             (Samples.synchronized (Samples.viewOf 1 RUNNING pomo (Some Samples.report))));
      first [reflexivity | simpl; lia].
Defined.

(** The skip gives the same result from any state and any time left. *)
Lemma skip_ignores_state_and_time c tl st :
  let c' := mkComponent (now c)
              (mkView tl st (mode (stateRef c)) (activeTask (stateRef c)) (settings (stateRef c))) in
  snapshot (run skipTimer c') = snapshot (run skipTimer c) /\
  calls skipTimer c' = calls skipTimer c.
Proof. apply handleTimerFinish_depends_on; reflexivity. Qed.

(** A running tick with more than a second left, in closed form. *)
Lemma tick_decrements c :
  synced c -> timerState (now c) = RUNNING -> 1 < timeLeft (now c) ->
  tick c =
    (tt,
     mkComponent
       (mkView (timeLeft (now c) - 1) (timerState (now c)) (mode (now c))
               (activeTask (now c)) (settings (now c)))
       (stateRef c),
     []).
Proof.
  intros S R L. unfold tick, bind, readRef. rewrite S, R. simpl.
  apply Z.leb_gt in L. rewrite L. simpl. rewrite ?S, ?R. reflexivity.
Qed.

(** A tick that finds the timer not running. *)
Lemma tick_absorbed c :
  synced c -> timerState (now c) <> RUNNING -> tick c = (tt, c, []).
Proof.
  intros S N. unfold tick, bind, readRef. rewrite S.
  destruct (timerState (now c)); [|congruence|]; reflexivity.
Qed.

(** C4. A tick while [RUNNING] is [handleTimerFinish] when at most one
    second is left and otherwise takes exactly one second off, leaving state
    and mode; a tick while [IDLE] or [PAUSED] changes nothing and calls
    nothing. *)
Theorem tick_behaviour c :
  synced c ->
  (timerState (now c) = RUNNING -> timeLeft (now c) <= 1 ->
     tick c = handleTimerFinish c) /\
  (timerState (now c) = RUNNING -> 1 < timeLeft (now c) ->
     snapshot (run tick c) = (timeLeft (now c) - 1, RUNNING, mode (now c)) /\
     calls tick c = []) /\
  (timerState (now c) <> RUNNING ->
     run tick c = c /\ calls tick c = []).
Proof.
  intros S. split; [|split].
  - intros R L. apply finishes_is_handleTimerFinish; [exact S | constructor; assumption].
  - intros R L. unfold snapshot, run, calls.
    rewrite (tick_decrements c S R L). simpl. rewrite R. split; reflexivity.
  - intros N. unfold run, calls. rewrite (tick_absorbed c S N). split; reflexivity.
Qed.

Lemma tick_behaviour_witness :
  let expiring := Samples.synchronized (Samples.viewOf 1 RUNNING short (Some Samples.email)) in
  let running := Samples.synchronized (Samples.viewOf 120 RUNNING pomo (Some Samples.email)) in
  let paused := Samples.synchronized (Samples.viewOf 120 PAUSED pomo (Some Samples.email)) in
  let idle := Samples.synchronized (Samples.viewOf 1 IDLE long (Some Samples.email)) in
  tick expiring = handleTimerFinish expiring /\
  (snapshot (run tick running) = (119, RUNNING, pomo) /\ calls tick running = []) /\
  (run tick paused = paused /\ calls tick paused = []) /\
  (run tick idle = idle /\ calls tick idle = []).
Proof.
  repeat apply conj.
  - apply (proj1 (tick_behaviour
             (Samples.synchronized (Samples.viewOf 1 RUNNING short (Some Samples.email)))
             eq_refl)); simpl; [reflexivity | lia].
  - apply (proj1 (proj2 (tick_behaviour
             (Samples.synchronized (Samples.viewOf 120 RUNNING pomo (Some Samples.email)))
             eq_refl))); simpl; [reflexivity | lia].
  - apply (proj1 (proj2 (tick_behaviour
             (Samples.synchronized (Samples.viewOf 120 RUNNING pomo (Some Samples.email)))
             eq_refl))); simpl; [reflexivity | lia].
  - apply (proj2 (proj2 (tick_behaviour
             (Samples.synchronized (Samples.viewOf 120 PAUSED pomo (Some Samples.email)))
             eq_refl))); discriminate.
  - apply (proj2 (proj2 (tick_behaviour
             (Samples.synchronized (Samples.viewOf 120 PAUSED pomo (Some Samples.email)))
             eq_refl))); discriminate.
  - apply (proj2 (proj2 (tick_behaviour
             (Samples.synchronized (Samples.viewOf 1 IDLE long (Some Samples.email)))
             eq_refl))); discriminate.
  - apply (proj2 (proj2 (tick_behaviour
             (Samples.synchronized (Samples.viewOf 1 IDLE long (Some Samples.email)))
             eq_refl))); discriminate.
Defined.

(** *** What each event does to the committed values *)

Lemma handleTimerFinish_fresh c :
  let c' := run handleTimerFinish c in
  timeLeft (now c') = duration (mode (now c')) (settings (stateRef c)) * 60 /\
  settings (now c') = settings (now c) /\
  activeTask (now c') = activeTask (now c).
Proof.
  unfold run. destruct (mode (stateRef c)) eqn:E.
  - rewrite (handleTimerFinish_pomo c E). simpl. repeat split.
  - rewrite (handleTimerFinish_break c) by congruence. simpl. repeat split.
  - rewrite (handleTimerFinish_break c) by congruence. simpl. repeat split.
Qed.

Lemma toggleTimer_now c :
  now (run toggleTimer c) =
    mkView (timeLeft (now c))
           (if TimerState_eqb (timerState (now c)) RUNNING then PAUSED else RUNNING)
           (mode (now c)) (activeTask (now c)) (settings (now c)).
Proof. reflexivity. Qed.

Lemma resetEffect_now c :
  now (run resetEffect c) =
    match activeTask (now c) with
    | Some _ =>
        mkView (pomodoroDuration (settings (now c)) * 60) IDLE pomo
               (activeTask (now c)) (settings (now c))
    | None => now c
    end.
Proof.
  unfold run, resetEffect.
  destruct (activeTask (now c)) eqn:E; simpl; rewrite ?E; reflexivity.
Qed.

(** New props, in closed form: the reset happens when a dependency changed
    and the new active task exists. *)
Lemma receiveProps_now t s c :
  now (receiveProps t s c) =
    match t with
    | Some _ =>
        if resetDepsChanged (now c) (mkView (timeLeft (now c)) (timerState (now c)) (mode (now c)) t s)
        then mkView (pomodoroDuration s * 60) IDLE pomo t s
        else mkView (timeLeft (now c)) (timerState (now c)) (mode (now c)) t s
    | None => mkView (timeLeft (now c)) (timerState (now c)) (mode (now c)) None s
    end.
Proof.
  unfold receiveProps.
  destruct (resetDepsChanged _ _); destruct t; simpl; try reflexivity;
    rewrite resetEffect_now; reflexivity.
Qed.

Lemma dispatch_synced e c c' l : dispatch e c = Some (c', l) -> synced c'.
Proof.
  destruct e; simpl; intros H.
  - inversion H; reflexivity.
  - destruct (activeTask (now c)); inversion H; reflexivity.
  - destruct (activeTask (now c)); inversion H; reflexivity.
  - destruct (activeTask (now c)); inversion H; reflexivity.
  - inversion H. unfold receiveProps.
    destruct (resetDepsChanged _ _); reflexivity.
Qed.

Lemma mount_synced t s : synced (mount t s).
Proof. reflexivity. Qed.

Lemma mount_now t s : now (mount t s) = mkView (pomodoroDuration s * 60) IDLE pomo t s.
Proof. destruct t; reflexivity. Qed.

(** Induction over a run of events for a property the events preserve. *)
Lemma runEvents_preserves (P : Component -> Prop) (ok : Event -> Prop) :
  (forall e c c' l, ok e -> P c -> dispatch e c = Some (c', l) -> P c') ->
  forall es c c' l,
    Forall ok es -> P c -> runEvents es c = Some (c', l) -> P c'.
Proof.
  intros step es. induction es as [|e es IH]; intros c c' l F Pc R; simpl in R.
  - inversion R; subst; exact Pc.
  - inversion F as [|? ? Fe Fes]; subst.
    destruct (dispatch e c) as [[c1 l1]|] eqn:D; [|discriminate].
    destruct (runEvents es c1) as [[c2 l2]|] eqn:R'; [|discriminate].
    inversion R; subst.
    eapply IH; [exact Fes | eapply step; eassumption | exact R'].
Qed.

Lemma reachable_synced c : reachable c -> synced c.
Proof.
  intros (t & s & es & l & _ & F & R).
  revert R. apply (runEvents_preserves synced (fun _ => True)).
  - intros e c0 c1 l0 _ _. apply dispatch_synced.
  - apply Forall_forall; trivial.
  - apply mount_synced.
Qed.

Lemma duration_nonneg m s : settings_ok s -> 0 <= duration m s * 60.
Proof. intros (A & B & C). destruct m; simpl; lia. Qed.

Lemma sameDurations_duration s s' m : sameDurations s s' -> duration m s' = duration m s.
Proof. intros (A & B & C). destruct m; simpl; assumption. Qed.

Lemma commit_handleTimerFinish_inv s c :
  settings_ok s -> fixedDurationsInv s c ->
  fixedDurationsInv s (syncRef (run handleTimerFinish c)).
Proof.
  intros OK (S & D & _).
  destruct (handleTimerFinish_fresh c) as (T & E & _).
  split; [reflexivity|]. unfold timeLeftInRange. simpl.
  rewrite E. split; [exact D|].
  rewrite T, S, (sameDurations_duration s _ _ D).
  pose proof (duration_nonneg (mode (now (run handleTimerFinish c))) s OK). lia.
Qed.

Lemma dispatch_fixedDurationsInv s e c c' l :
  settings_ok s -> keepsDurations s e -> fixedDurationsInv s c ->
  dispatch e c = Some (c', l) -> fixedDurationsInv s c'.
Proof.
  intros OK K I H. pose proof I as (S & D & R).
  destruct e; simpl in H.
  - (* Tick *)
    inversion H; subst; clear H.
    destruct (TimerState_eqb (timerState (now c)) RUNNING) eqn:Erun.
    + assert (Run : timerState (now c) = RUNNING)
        by (destruct (timerState (now c)); simpl in Erun; congruence).
      destruct (Z.leb_spec (timeLeft (now c)) 1) as [L|L].
      * assert (E : tick c = handleTimerFinish c)
          by (apply finishes_is_handleTimerFinish; [exact S | constructor; assumption]).
        unfold run. rewrite E. apply (commit_handleTimerFinish_inv s c OK I).
      * unfold run. rewrite (tick_decrements c S Run L).
        split; [reflexivity|]. unfold timeLeftInRange in *. simpl. split; [exact D|lia].
    + assert (N : timerState (now c) <> RUNNING)
        by (intro X; rewrite X in Erun; discriminate).
      unfold run. rewrite (tick_absorbed c S N). simpl.
      split; [reflexivity|]. split; assumption.
  - (* ClickToggle *)
    destruct (activeTask (now c)); [|discriminate].
    inversion H; subst; clear H.
    split; [reflexivity|]. unfold timeLeftInRange. simpl. split; assumption.
  - (* ClickSkip *)
    destruct (activeTask (now c)); [|discriminate].
    inversion H; subst; clear H. apply (commit_handleTimerFinish_inv s c OK I).
  - (* ClickComplete *)
    destruct (activeTask (now c)); [|discriminate].
    inversion H; subst; clear H. simpl.
    split; [reflexivity|]. split; assumption.
  - (* Props *)
    inversion H; subst; clear H. simpl in K.
    split; [apply (dispatch_synced (Props t s0) c _ []); reflexivity|].
    unfold timeLeftInRange. rewrite receiveProps_now.
    pose proof (duration_nonneg pomo s OK) as P0. simpl in P0.
    pose proof (sameDurations_duration s _ (mode (now c)) D) as E1.
    pose proof (sameDurations_duration s _ (mode (now c)) K) as E2.
    destruct K as (Kp & Ks & Kl).
    unfold timeLeftInRange in R.
    destruct t; [destruct (resetDepsChanged _ _)|]; simpl;
      (split; [repeat split; assumption|]); try lia.
Qed.

(** The special case of props that never change one of the three
    durations. *)
Theorem timeLeft_in_range_fixed_durations t s es c l :
  settings_ok s ->
  Forall (keepsDurations s) es ->
  runEvents es (mount t s) = Some (c, l) ->
  0 <= timeLeft (now c) <= duration (mode (now c)) (settings (now c)) * 60.
Proof.
  intros OK F R.
  assert (I : fixedDurationsInv s c).
  { revert R. apply (runEvents_preserves (fixedDurationsInv s) (keepsDurations s)).
    - intros e c0 c1 l0 K I0 D. exact (dispatch_fixedDurationsInv s e c0 c1 l0 OK K I0 D).
    - exact F.
    - split; [apply mount_synced|]. unfold timeLeftInRange. rewrite mount_now. simpl.
      split; [repeat split|]. destruct OK as (A & _). lia. }
  exact (proj2 (proj2 I)).
Qed.

Lemma timeLeft_in_range_fixed_durations_witness :
  let c := mkComponent (mkView 299 RUNNING short (Some Samples.email) Samples.settings25)
                       (mkView 299 RUNNING short (Some Samples.email) Samples.settings25) in
  0 <= timeLeft (now c) <= duration (mode (now c)) (settings (now c)) * 60.
Proof.
  apply (timeLeft_in_range_fixed_durations (Some Samples.email) Samples.settings25
           [ClickSkip; Props (Some Samples.email) Samples.settings25; Tick]
           _ [PlayChime; OnPomodoroComplete (id Samples.email)]).
  - unfold settings_ok; simpl; lia.
  - repeat constructor.
  - reflexivity.
Defined.

Lemma commit_handleTimerFinish_range c :
  rangeInv c -> rangeInv (syncRef (run handleTimerFinish c)).
Proof.
  intros (S & OK & _).
  destruct (handleTimerFinish_fresh c) as (T & E & _).
  split; [reflexivity|]. unfold timeLeftInRange. simpl.
  rewrite E. split; [exact OK|]. rewrite T, S.
  pose proof (duration_nonneg (mode (now (run handleTimerFinish c))) _ OK). lia.
Qed.

(** One event keeps the range, a render included when it fits. *)
Lemma dispatch_rangeInv e c c' l :
  bringsGoodSettings e -> renderFits e c -> rangeInv c ->
  dispatch e c = Some (c', l) -> rangeInv c'.
Proof.
  intros G Fit I H. pose proof I as (S & OK & R).
  destruct e; simpl in H.
  - inversion H; subst; clear H.
    destruct (TimerState_eqb (timerState (now c)) RUNNING) eqn:Erun.
    + assert (Run : timerState (now c) = RUNNING)
        by (destruct (timerState (now c)); simpl in Erun; congruence).
      destruct (Z.leb_spec (timeLeft (now c)) 1) as [L|L].
      * assert (E : tick c = handleTimerFinish c)
          by (apply finishes_is_handleTimerFinish; [exact S | constructor; assumption]).
        unfold run. rewrite E. apply (commit_handleTimerFinish_range c I).
      * unfold run. rewrite (tick_decrements c S Run L).
        split; [reflexivity|]. unfold timeLeftInRange in *. simpl. split; [exact OK|lia].
    + assert (N : timerState (now c) <> RUNNING)
        by (intro X; rewrite X in Erun; discriminate).
      unfold run. rewrite (tick_absorbed c S N). simpl.
      split; [reflexivity|]. split; assumption.
  - destruct (activeTask (now c)); [|discriminate].
    inversion H; subst; clear H.
    split; [reflexivity|]. unfold timeLeftInRange. simpl. split; assumption.
  - destruct (activeTask (now c)); [|discriminate].
    inversion H; subst; clear H. apply (commit_handleTimerFinish_range c I).
  - destruct (activeTask (now c)); [|discriminate].
    inversion H; subst; clear H. simpl.
    split; [reflexivity|]. split; assumption.
  - inversion H; subst; clear H.
    assert (OK' : settings_ok s) by (apply G; reflexivity).
    split; [apply (dispatch_synced (Props t s) c _ []); reflexivity|].
    unfold timeLeftInRange in *. rewrite receiveProps_now.
    pose proof (duration_nonneg pomo s OK') as P0. simpl in P0.
    simpl in Fit. unfold resets in Fit.
    destruct t as [t|].
    + destruct (resetDepsChanged _ _); simpl; (split; [exact OK'|]); [lia|].
      destruct Fit as [X|X]; [discriminate|lia].
    + simpl. split; [exact OK'|]. destruct Fit as [X|X]; [discriminate|lia].
Qed.

Lemma runEvents_rangeInv es : forall c c' l,
  Forall bringsGoodSettings es -> rendersFit es c -> rangeInv c ->
  runEvents es c = Some (c', l) -> rangeInv c'.
Proof.
  induction es as [|e es IH]; intros c c' l G Fit I R; simpl in R.
  - inversion R; subst; exact I.
  - inversion G as [|? ? Ge Ges]; subst. destruct Fit as (Fe & Fes).
    destruct (dispatch e c) as [[c1 l1]|] eqn:D; [|discriminate].
    destruct (runEvents es c1) as [[c2 l2]|] eqn:R'; [|discriminate].
    inversion R; subst.
    eapply IH; [exact Ges | exact Fes | | exact R'].
    exact (dispatch_rangeInv e c c1 l1 Ge Fe I D).
Qed.

(** A render that does not fit is exactly what breaks the range. *)
Lemma unfit_render_leaves_range t s' c :
  ~ renderFits (Props t s') c -> ~ timeLeftInRange (receiveProps t s' c).
Proof.
  intros N R. apply N. simpl. unfold resets.
  unfold timeLeftInRange in R. rewrite receiveProps_now in R.
  destruct t as [t|].
  - destruct (resetDepsChanged _ _); [left; reflexivity|]. simpl in R. right; lia.
  - simpl in R. right; lia.
Qed.

(** C2, as amended. Along any run of tick, toggle, skip, complete and
    new-props events with well-formed settings, the time left stays in
    [[0, duration(mode, settings) * 60]], provided every settings change
    fits the interval in progress: it resets the engine (the active task
    exists and its id or [pomodoroDuration] changed), or it leaves the
    duration of the current mode at or above the time left. *)
Theorem timeLeft_in_range_when_renders_fit t s es c l :
  settings_ok s ->
  Forall bringsGoodSettings es ->
  rendersFit es (mount t s) ->
  runEvents es (mount t s) = Some (c, l) ->
  0 <= timeLeft (now c) <= duration (mode (now c)) (settings (now c)) * 60.
Proof.
  intros OK G Fit R.
  assert (I : rangeInv c).
  { apply (runEvents_rangeInv es (mount t s) c l G Fit); [|exact R].
    split; [apply mount_synced|]. unfold timeLeftInRange. rewrite mount_now. simpl.
    split; [exact OK|]. destruct OK as (A & _). lia. }
  exact (proj2 (proj2 I)).
Qed.

Lemma timeLeft_in_range_when_renders_fit_witness :
  let longerBreak := mkSettings 25 10 15 true false in
  let shorterFocus := mkSettings 10 10 15 true false in
  let c := mkComponent (mkView 600 IDLE pomo (Some Samples.email) shorterFocus)
                       (mkView 600 IDLE pomo (Some Samples.email) shorterFocus) in
  0 <= timeLeft (now c) <= duration (mode (now c)) (settings (now c)) * 60.
Proof.
  apply (timeLeft_in_range_when_renders_fit (Some Samples.email) Samples.settings25
           [ClickSkip;
            Props (Some Samples.email) (mkSettings 25 10 15 true false);
            Tick;
            Props (Some Samples.email) (mkSettings 10 10 15 true false)]
           _ [PlayChime; OnPomodoroComplete (id Samples.email)]).
  - unfold settings_ok; simpl; lia.
  - repeat (apply Forall_cons;
            [intros s' E; inversion E; subst; unfold settings_ok; simpl; lia|]).
    apply Forall_nil.
  - simpl. split; [exact I|]. split; [right; lia|]. split; [exact I|].
    split; [left; reflexivity | exact I].
  - reflexivity.
Defined.

(** C2, as stated, fails: after a skip into a five-minute short break, new
    props that shorten the short break to one minute leave 300 seconds on
    the clock, above [1 * 60]. *)
Lemma timeLeft_out_of_range_after_settings_change :
  exists c,
    reachable c /\
    ~ (0 <= timeLeft (now c) <= duration (mode (now c)) (settings (now c)) * 60).
Proof.
  exists (mkComponent (mkView 300 RUNNING short (Some Samples.email) Samples.settingsShort1)
                      (mkView 300 RUNNING short (Some Samples.email) Samples.settingsShort1)).
  split.
  - exists (Some Samples.email), Samples.settings25,
      [ClickSkip; Props (Some Samples.email) Samples.settingsShort1],
      [PlayChime; OnPomodoroComplete (id Samples.email)].
    split; [unfold settings_ok; simpl; lia|]. split; [|reflexivity].
    apply Forall_cons; [intros s' E; discriminate|].
    apply Forall_cons; [|apply Forall_nil].
    intros s' E; inversion E; subst; unfold settings_ok; simpl; lia.
  - simpl. lia.
Qed.

Lemma commit_handleTimerFinish_nonneg c :
  nonNegativeInv c -> nonNegativeInv (syncRef (run handleTimerFinish c)).
Proof.
  intros (S & OK & _).
  destruct (handleTimerFinish_fresh c) as (T & E & _).
  split; [reflexivity|]. simpl. rewrite E, T, S. split; [exact OK|].
  apply duration_nonneg, OK.
Qed.

Lemma dispatch_nonNegativeInv e c c' l :
  bringsGoodSettings e -> nonNegativeInv c ->
  dispatch e c = Some (c', l) -> nonNegativeInv c'.
Proof.
  intros G I H. pose proof I as (S & OK & N).
  destruct e; simpl in H.
  - inversion H; subst; clear H.
    destruct (TimerState_eqb (timerState (now c)) RUNNING) eqn:Erun.
    + assert (Run : timerState (now c) = RUNNING)
        by (destruct (timerState (now c)); simpl in Erun; congruence).
      destruct (Z.leb_spec (timeLeft (now c)) 1) as [L|L].
      * assert (E : tick c = handleTimerFinish c)
          by (apply finishes_is_handleTimerFinish; [exact S | constructor; assumption]).
        unfold run. rewrite E. apply (commit_handleTimerFinish_nonneg c I).
      * unfold run. rewrite (tick_decrements c S Run L).
        split; [reflexivity|]. simpl. split; [exact OK|lia].
    + assert (N' : timerState (now c) <> RUNNING)
        by (intro X; rewrite X in Erun; discriminate).
      unfold run. rewrite (tick_absorbed c S N'). simpl.
      split; [reflexivity|]. split; assumption.
  - destruct (activeTask (now c)); [|discriminate].
    inversion H; subst; clear H.
    split; [reflexivity|]. simpl. split; assumption.
  - destruct (activeTask (now c)); [|discriminate].
    inversion H; subst; clear H. apply (commit_handleTimerFinish_nonneg c I).
  - destruct (activeTask (now c)); [|discriminate].
    inversion H; subst; clear H. simpl.
    split; [reflexivity|]. split; assumption.
  - inversion H; subst; clear H.
    assert (OK' : settings_ok s) by (apply G; reflexivity).
    split; [apply (dispatch_synced (Props t s) c _ []); reflexivity|].
    rewrite receiveProps_now.
    pose proof (duration_nonneg pomo s OK') as P0. simpl in P0.
    destruct t; [destruct (resetDepsChanged _ _)|]; simpl; split; assumption.
Qed.

(** Whatever the props do, the time left of a reachable component is never
    negative. *)
Lemma reachable_timeLeft_nonneg c : reachable c -> 0 <= timeLeft (now c).
Proof.
  intros (t & s & es & l & OK & F & R).
  assert (I : nonNegativeInv c).
  { revert R. apply (runEvents_preserves nonNegativeInv bringsGoodSettings).
    - apply dispatch_nonNegativeInv.
    - exact F.
    - split; [apply mount_synced|]. rewrite mount_now. simpl.
      split; [exact OK|]. destruct OK as (A & _). lia. }
  exact (proj2 (proj2 I)).
Qed.

Lemma optString_eqb_eq a b : optString_eqb a b = true <-> a = b.
Proof.
  destruct a as [x|], b as [y|]; simpl; split; intros H;
    try discriminate; try reflexivity.
  - apply String.eqb_eq in H. congruence.
  - inversion H. apply String.eqb_refl.
Qed.

(** C6, as amended. When the identity of the active task changes to a task
    that exists, the engine is reset to [IDLE], [pomo] and
    [pomodoroDuration * 60] of the new settings, whatever it was doing; when
    the active task goes away, the guard of the reset effect leaves the
    snapshot as it was. *)
Theorem task_change_resets c t s :
  taskId (activeTask (now c)) <> taskId (Some t) ->
  snapshot (receiveProps (Some t) s c) = (pomodoroDuration s * 60, IDLE, pomo) /\
  snapshot (receiveProps None s c) = snapshot c.
Proof.
  intros N. unfold snapshot. rewrite !receiveProps_now. split; [|reflexivity].
  unfold resetDepsChanged. simpl activeTask.
  destruct (optString_eqb _ _) eqn:E.
  - apply optString_eqb_eq in E. contradiction.
  - reflexivity.
Qed.

Lemma task_change_resets_witness :
  let c := Samples.synchronized (Samples.viewOf 42 RUNNING long (Some Samples.report)) in
  snapshot (receiveProps (Some Samples.email) Samples.settingsShort1 c) = (1500, IDLE, pomo) /\
  snapshot (receiveProps None Samples.settingsShort1 c) = snapshot c.
Proof.
  apply (task_change_resets
           (Samples.synchronized (Samples.viewOf 42 RUNNING long (Some Samples.report)))
           Samples.email Samples.settingsShort1).
  simpl. discriminate.
Defined.

(** C6, as stated, fails: the active task of a running engine is taken
    away, so its identity changes, and the engine keeps running with 1499
    seconds left. *)
Lemma task_removed_engine_not_reset :
  exists c t' s',
    reachable c /\
    taskId (activeTask (now c)) <> taskId t' /\
    snapshot (receiveProps t' s' c) <> (pomodoroDuration s' * 60, IDLE, pomo).
Proof.
  exists (Samples.synchronized (Samples.viewOf 1499 RUNNING pomo (Some Samples.email))),
    None, Samples.settings25.
  split; [|split].
  - exists (Some Samples.email), Samples.settings25, [ClickToggle; Tick], [].
    split; [unfold settings_ok; simpl; lia|]. split; [|reflexivity].
    repeat (apply Forall_cons; [intros s' E; discriminate|]). apply Forall_nil.
  - simpl. discriminate.
  - simpl. discriminate.
Qed.

(** C8, as amended. A tick with no active task calls no completion callback.
    It changes nothing when the state is [IDLE] or [PAUSED]; when the state
    is [RUNNING] it is processed like any other tick: one second comes off,
    or [handleTimerFinish] runs. *)
Theorem tick_without_task c :
  synced c ->
  activeTask (now c) = None ->
  filter isCompletion (calls tick c) = [] /\
  (timerState (now c) <> RUNNING -> run tick c = c /\ calls tick c = []) /\
  (timerState (now c) = RUNNING -> 1 < timeLeft (now c) ->
     snapshot (run tick c) = (timeLeft (now c) - 1, RUNNING, mode (now c))) /\
  (timerState (now c) = RUNNING -> timeLeft (now c) <= 1 ->
     tick c = handleTimerFinish c).
Proof.
  intros S T. split; [|split; [|split]].
  - destruct (TimerState_eqb (timerState (now c)) RUNNING) eqn:Erun.
    + assert (Run : timerState (now c) = RUNNING)
        by (destruct (timerState (now c)); simpl in Erun; congruence).
      destruct (Z.leb_spec (timeLeft (now c)) 1) as [L|L].
      * unfold calls.
        rewrite (finishes_is_handleTimerFinish tick c S (finishes_expiry c Run L)).
        destruct (mode (stateRef c)) eqn:M.
        -- rewrite (handleTimerFinish_pomo c M). rewrite S, T. reflexivity.
        -- rewrite (handleTimerFinish_break c) by congruence. reflexivity.
        -- rewrite (handleTimerFinish_break c) by congruence. reflexivity.
      * unfold calls. rewrite (tick_decrements c S Run L). reflexivity.
    + assert (N : timerState (now c) <> RUNNING)
        by (intro X; rewrite X in Erun; discriminate).
      unfold calls. rewrite (tick_absorbed c S N). reflexivity.
  - intros N. unfold run, calls. rewrite (tick_absorbed c S N). split; reflexivity.
  - intros Run L. unfold snapshot, run.
    rewrite (tick_decrements c S Run L). simpl. rewrite Run. reflexivity.
  - intros Run L. apply finishes_is_handleTimerFinish; [exact S | constructor; assumption].
Qed.

Lemma tick_without_task_witness :
  let paused := Samples.synchronized (Samples.viewOf 10 PAUSED pomo None) in
  let running := Samples.synchronized (Samples.viewOf 10 RUNNING pomo None) in
  let expiring := Samples.synchronized (Samples.viewOf 1 RUNNING pomo None) in
  (run tick paused = paused /\ calls tick paused = []) /\
  snapshot (run tick running) = (9, RUNNING, pomo) /\
  tick expiring = handleTimerFinish expiring /\
  filter isCompletion (calls tick expiring) = [].
Proof.
  repeat apply conj.
  - apply (proj1 (proj2 (tick_without_task
             (Samples.synchronized (Samples.viewOf 10 PAUSED pomo None)) eq_refl eq_refl)));
      discriminate.
  - apply (proj1 (proj2 (tick_without_task
             (Samples.synchronized (Samples.viewOf 10 PAUSED pomo None)) eq_refl eq_refl)));
      discriminate.
  - apply (proj1 (proj2 (proj2 (tick_without_task
             (Samples.synchronized (Samples.viewOf 10 RUNNING pomo None)) eq_refl eq_refl))));
      simpl; [reflexivity | lia].
  - apply (proj2 (proj2 (proj2 (tick_without_task
             (Samples.synchronized (Samples.viewOf 1 RUNNING pomo None)) eq_refl eq_refl))));
      simpl; [reflexivity | lia].
  - apply (proj1 (tick_without_task
             (Samples.synchronized (Samples.viewOf 1 RUNNING pomo None)) eq_refl eq_refl)).
Defined.

(** C8, as stated, fails: a running engine whose active task was taken away
    still counts down on the next tick. *)
Lemma tick_without_task_counts_down :
  exists c,
    reachable c /\
    activeTask (now c) = None /\
    timerState (now c) = RUNNING /\
    snapshot (run tick c) <> snapshot c.
Proof.
  exists (Samples.synchronized (Samples.viewOf 1500 RUNNING pomo None)).
  split; [|split; [reflexivity|split; [reflexivity|]]].
  - exists (Some Samples.email), Samples.settings25,
      [ClickToggle; Props None Samples.settings25], [].
    split; [unfold settings_ok; simpl; lia|]. split; [|reflexivity].
    apply Forall_cons; [intros s' E; discriminate|].
    apply Forall_cons; [|apply Forall_nil].
    intros s' E; inversion E; subst; unfold settings_ok; simpl; lia.
  - simpl. discriminate.
Qed.

(** The end-to-end scenario of the spec: 25/5/15 minutes, breaks start by
    themselves, focus does not; the task has three pomodoros done.  The
    focus interval runs out into a running long break of 900 seconds, and
    the break runs out into an idle focus interval of 1500 seconds. *)
Example end_to_end_scenario :
  let c0 := mount (Some Samples.report) Samples.settings25 in
  let c1 := Samples.synchronized (Samples.viewOf 900 RUNNING long (Some Samples.report)) in
  let c2 := Samples.synchronized (Samples.viewOf 1500 IDLE pomo (Some Samples.report)) in
  runEvents (ClickToggle :: repeat Tick 1500) c0
    = Some (c1, [PlayChime; OnPomodoroComplete (id Samples.report)]) /\
  runEvents (repeat Tick 900) c1 = Some (c2, [PlayChime]).
Proof. split; vm_compute; reflexivity. Qed.

End TimerFacts.

(** ** The plan-extraction client: proofs *)

Module PlanFacts.
Import Plan.
Local Open Scope string_scope.
Local Open Scope eff_scope.
Import PlanSpec.

Lemma andThen_pure {A B} (a : A) (k : A -> Eff B) : andThen (pure a) k = k a.
Proof. unfold andThen, pure. destruct (k a); reflexivity. Qed.

(** Without a credential: the empty result, one warning, nothing else. *)
Lemma parse_without_credential w input baseTime :
  missing (API_KEY w) = true ->
  parseNaturalLanguagePlan w input baseTime =
    (Returns noTasks, [ConsoleWarn "API_KEY not found in environment variables"]).
Proof.
  unfold parseNaturalLanguagePlan, getClient. intros M.
  destruct (API_KEY w) as [k|]; [rewrite M|]; reflexivity.
Qed.

(** With a credential the function is the guarded block. *)
Lemma parse_with_credential w input baseTime k :
  API_KEY w = Some k -> missing (API_KEY w) = false ->
  parseNaturalLanguagePlan w input baseTime =
    tryCatch
      (response <- callModel w (sentRequest w k input baseTime) ;;
       result <- lift (JSON_parse w (stringOr (text response) "{}")) ;;
       resultTasks <- getProperty result "tasks" ;;
       pure (mkAIResponse (valueOr resultTasks (JArray []))))
      (fun error =>
         emit (ConsoleError "Gemini API Error:" error) ;;
         pure noTasks).
Proof.
  unfold parseNaturalLanguagePlan, getClient. intros K M.
  rewrite K in *. rewrite M. rewrite andThen_pure. reflexivity.
Qed.

(** The handler of the [catch] never throws, so the guarded block always
    settles with a value. *)
Lemma guarded_block_returns (m : Eff AIResponse) :
  exists r,
    settled (tryCatch m (fun error =>
               emit (ConsoleError "Gemini API Error:" error) ;; pure noTasks))
    = Returns r.
Proof.
  destruct m as [[a|e] l]; simpl; eexists; reflexivity.
Qed.

(** C7. [parseNaturalLanguagePlan] never rejects.  Without a credential it
    returns [{tasks: []}] and its trace holds no external call; when the
    external call throws, when [JSON.parse] throws, and when the parsed
    object has no [tasks] property, it returns [{tasks: []}]. *)
Theorem parseNaturalLanguagePlan_never_raises w input baseTime :
  (exists r, settled (parseNaturalLanguagePlan w input baseTime) = Returns r) /\
  (missing (API_KEY w) = true ->
     settled (parseNaturalLanguagePlan w input baseTime) = Returns noTasks /\
     filter isExternalCall (trace (parseNaturalLanguagePlan w input baseTime)) = []) /\
  (forall k, API_KEY w = Some k -> missing (API_KEY w) = false ->
     (forall e,
        generateContent w (sentRequest w k input baseTime) = Throws e ->
        settled (parseNaturalLanguagePlan w input baseTime) = Returns noTasks) /\
     (forall response e,
        generateContent w (sentRequest w k input baseTime) = Returns response ->
        JSON_parse w (stringOr (text response) "{}") = Throws e ->
        settled (parseNaturalLanguagePlan w input baseTime) = Returns noTasks) /\
     (forall response properties,
        generateContent w (sentRequest w k input baseTime) = Returns response ->
        JSON_parse w (stringOr (text response) "{}") = Returns (JObject properties) ->
        lookup "tasks" properties = None ->
        settled (parseNaturalLanguagePlan w input baseTime) = Returns noTasks)).
Proof.
  split; [|split].
  - destruct (missing (API_KEY w)) eqn:M.
    + rewrite (parse_without_credential w input baseTime M). eexists; reflexivity.
    + destruct (API_KEY w) as [k|] eqn:K; [|discriminate].
      rewrite (parse_with_credential w input baseTime k K)
        by (rewrite K; exact M).
      apply guarded_block_returns.
  - intros M. rewrite (parse_without_credential w input baseTime M).
    split; reflexivity.
  - intros k K M. rewrite (parse_with_credential w input baseTime k K M).
    unfold callModel, settled. simpl.
    split; [|split].
    + intros e G. rewrite G. reflexivity.
    + intros response e G P. rewrite G. simpl. rewrite P. reflexivity.
    + intros response properties G P L. rewrite G. simpl. rewrite P. simpl.
      rewrite L. reflexivity.
Qed.

Lemma parseNaturalLanguagePlan_never_raises_witness :
  (settled (parseNaturalLanguagePlan PlanSamples.noKey "lunch then gym" 0) = Returns noTasks /\
   filter isExternalCall (trace (parseNaturalLanguagePlan PlanSamples.noKey "lunch then gym" 0)) = []) /\
  (settled (parseNaturalLanguagePlan PlanSamples.emptyKey "lunch then gym" 0) = Returns noTasks /\
   filter isExternalCall (trace (parseNaturalLanguagePlan PlanSamples.emptyKey "lunch then gym" 0)) = []) /\
  settled (parseNaturalLanguagePlan PlanSamples.offline "lunch then gym" 0) = Returns noTasks /\
  settled (parseNaturalLanguagePlan PlanSamples.garbled "lunch then gym" 0) = Returns noTasks /\
  settled (parseNaturalLanguagePlan PlanSamples.silent "lunch then gym" 0) = Returns noTasks.
Proof.
  split; [|split; [|split; [|split]]].
  - apply (proj1 (proj2 (parseNaturalLanguagePlan_never_raises
                           PlanSamples.noKey "lunch then gym" 0))).
    reflexivity.
  - apply (proj1 (proj2 (parseNaturalLanguagePlan_never_raises
                           PlanSamples.emptyKey "lunch then gym" 0))).
    reflexivity.
  - apply (proj1 (proj2 (proj2 (parseNaturalLanguagePlan_never_raises
                                  PlanSamples.offline "lunch then gym" 0))
                   "k" eq_refl eq_refl)
             (ApiError "503")).
    reflexivity.
  - apply (proj1 (proj2 (proj2 (proj2 (parseNaturalLanguagePlan_never_raises
                                         PlanSamples.garbled "lunch then gym" 0))
                          "k" eq_refl eq_refl))
             (mkResponse (Some "<html>")) (SyntaxError "Unexpected token")).
    + reflexivity.
    + reflexivity.
  - apply (proj2 (proj2 (proj2 (proj2 (parseNaturalLanguagePlan_never_raises
                                         PlanSamples.silent "lunch then gym" 0))
                          "k" eq_refl eq_refl))
             (mkResponse None) []).
    + reflexivity.
    + reflexivity.
    + reflexivity.
Defined.

(** A body that parses to [null]: reading [tasks] throws inside the guarded
    block, and the handler returns the empty result. *)
Lemma parsed_null_degrades w input baseTime k response :
  API_KEY w = Some k -> missing (API_KEY w) = false ->
  generateContent w (sentRequest w k input baseTime) = Returns response ->
  JSON_parse w (stringOr (text response) "{}") = Returns JNull ->
  parseNaturalLanguagePlan w input baseTime =
    (Returns noTasks,
     [ExternalCall (sentRequest w k input baseTime);
      ConsoleError "Gemini API Error:" (TypeError "Cannot read properties of null")]).
Proof.
  intros K M G P. rewrite (parse_with_credential w input baseTime k K M).
  unfold callModel. simpl. rewrite G. simpl. rewrite P. reflexivity.
Qed.

Example null_body_is_caught :
  settled (parseNaturalLanguagePlan PlanSamples.nullBody "lunch then gym" 0) = Returns noTasks.
Proof. reflexivity. Qed.

(** C10. When the call succeeds and the body parses to an object whose
    [tasks] property is truthy, the function returns that value as parsed:
    the elements are not inspected.  The trace is the one external call. *)
Theorem tasks_returned_as_parsed w input baseTime k response properties v :
  API_KEY w = Some k ->
  missing (API_KEY w) = false ->
  generateContent w (sentRequest w k input baseTime) = Returns response ->
  JSON_parse w (stringOr (text response) "{}") = Returns (JObject properties) ->
  lookup "tasks" properties = Some v ->
  truthy (Some v) = true ->
  parseNaturalLanguagePlan w input baseTime =
    (Returns (mkAIResponse v), [ExternalCall (sentRequest w k input baseTime)]).
Proof.
  intros K M G P L T. rewrite (parse_with_credential w input baseTime k K M).
  unfold callModel. simpl. rewrite G. simpl. rewrite P. simpl. rewrite L.
  unfold valueOr. rewrite T. reflexivity.
Qed.

Lemma tasks_returned_as_parsed_witness :
  parseNaturalLanguagePlan PlanSamples.answering "lunch then gym" 0 =
    (Returns (mkAIResponse PlanSamples.looseTasks),
     [ExternalCall (sentRequest PlanSamples.answering "k" "lunch then gym" 0)]).
Proof.
  apply (tasks_returned_as_parsed PlanSamples.answering "lunch then gym" 0 "k"
           (mkResponse (Some "PLAN"))
           [("tasks", PlanSamples.looseTasks)] PlanSamples.looseTasks);
    reflexivity.
Defined.

End PlanFacts.

(** ** The timer: further properties *)

Module TimerMore.
Import Timer TimerSpec TimerView MoreSpec.
Local Open Scope handler_scope.

Lemma runEvents_app es1 es2 c c1 l1 :
  runEvents es1 c = Some (c1, l1) ->
  runEvents (es1 ++ es2) c =
    match runEvents es2 c1 with
    | Some (c2, l2) => Some (c2, l1 ++ l2)
    | None => None
    end.
Proof.
  revert c c1 l1. induction es1 as [|e es IH]; intros c c1 l1 R; simpl in *.
  - inversion R; subst. destruct (runEvents es2 c1) as [[c2 l2]|]; reflexivity.
  - destruct (dispatch e c) as [[c' l']|]; [|discriminate].
    destruct (runEvents es c') as [[c'' l'']|] eqn:R'; [|discriminate].
    inversion R; subst. rewrite (IH c' c1 l'' R').
    destruct (runEvents es2 c1) as [[c2 l2]|]; [|reflexivity].
    rewrite app_assoc. reflexivity.
Qed.

Lemma elapsed_zero c : synced c -> elapsed c 0 = c.
Proof.
  unfold synced, elapsed. destruct c as [v r]; simpl. intros ->.
  rewrite Z.sub_0_r. destruct v; reflexivity.
Qed.

Lemma elapsed_elapsed c j k : elapsed (elapsed c j) k = elapsed c (j + k).
Proof. unfold elapsed; simpl. replace (timeLeft (now c) - j - k) with (timeLeft (now c) - (j + k)) by lia. reflexivity. Qed.

(** One running tick with more than a second left. *)
Lemma dispatch_Tick_counts_down c :
  synced c -> timerState (now c) = RUNNING -> 1 < timeLeft (now c) ->
  dispatch Tick c = Some (elapsed c 1, []).
Proof.
  intros S R L. simpl. unfold commit, run, calls.
  rewrite (TimerFacts.tick_decrements c S R L). reflexivity.
Qed.

(** [k] ticks of a running timer that has more than [k] seconds left only
    count down. *)
Lemma ticks_count_down k : forall c,
  synced c -> timerState (now c) = RUNNING -> Z.of_nat k < timeLeft (now c) ->
  runEvents (repeat Tick k) c = Some (elapsed c (Z.of_nat k), []).
Proof.
  induction k as [|k IH]; intros c Sy R L.
  - simpl. rewrite (elapsed_zero c Sy). reflexivity.
  - change (repeat Tick (S k)) with (Tick :: repeat Tick k).
    cbn [runEvents]. rewrite (dispatch_Tick_counts_down c Sy R) by lia.
    rewrite (IH (elapsed c 1)); [| reflexivity | exact R | simpl; lia].
    rewrite elapsed_elapsed. replace (1 + Z.of_nat k) with (Z.of_nat (S k)) by lia.
    reflexivity.
Qed.

(** X1. A running interval with [n + 1] seconds left ends on exactly its
    [(n + 1)]-th tick: up to [n] ticks only count down, without any call,
    and the next one gives what [handleTimerFinish] gives. *)
Theorem running_interval_ends_on_last_second n c :
  synced c ->
  timerState (now c) = RUNNING ->
  timeLeft (now c) = Z.of_nat (S n) ->
  (forall k, (k <= n)%nat ->
     runEvents (repeat Tick k) c = Some (elapsed c (Z.of_nat k), [])) /\
  exists c',
    runEvents (repeat Tick (S n)) c = Some (c', calls handleTimerFinish c) /\
    snapshot c' = snapshot (run handleTimerFinish c) /\
    synced c'.
Proof.
  intros Sy R T. split.
  - intros k K. apply ticks_count_down; [exact Sy | exact R | lia].
  - exists (syncRef (run handleTimerFinish (elapsed c (Z.of_nat n)))).
    assert (F : tick (elapsed c (Z.of_nat n)) = handleTimerFinish (elapsed c (Z.of_nat n))).
    { apply TimerFacts.finishes_is_handleTimerFinish; [reflexivity|].
      constructor; simpl; [exact R | lia]. }
    destruct (TimerFacts.handleTimerFinish_depends_on (elapsed c (Z.of_nat n)) c)
      as (Hs & Hc); try (simpl; rewrite Sy; reflexivity).
    split; [|split; [exact Hs | reflexivity]].
    change (repeat Tick (S n)) with (Tick :: repeat Tick n).
    rewrite repeat_cons.
    rewrite (runEvents_app (repeat Tick n) [Tick] c (elapsed c (Z.of_nat n)) [])
      by (apply ticks_count_down; [exact Sy | exact R | lia]).
    simpl. unfold commit, run, calls in *. rewrite F, Hc, app_nil_r. reflexivity.
Qed.

Lemma running_interval_ends_on_last_second_witness :
  let c := Samples.synchronized (Samples.viewOf 3 RUNNING short (Some Samples.email)) in
  (forall k, (k <= 2)%nat ->
     runEvents (repeat Tick k) c = Some (elapsed c (Z.of_nat k), [])) /\
  exists c',
    runEvents (repeat Tick 3) c = Some (c', calls handleTimerFinish c) /\
    snapshot c' = snapshot (run handleTimerFinish c) /\
    synced c'.
Proof.
  apply (running_interval_ends_on_last_second 2
           (Samples.synchronized (Samples.viewOf 3 RUNNING short (Some Samples.email))));
    reflexivity.
Defined.

(** X2. Every finish starts a fresh interval of the other kind: the mode is
    [pomo] afterwards exactly when it was a break before, the time left is
    the full length of the new mode, the state is never [PAUSED], and the
    props are untouched. *)
Theorem finish_alternates_and_is_fresh c :
  synced c ->
  (mode (now (run handleTimerFinish c)) = pomo <-> mode (now c) <> pomo) /\
  timeLeft (now (run handleTimerFinish c))
    = duration (mode (now (run handleTimerFinish c))) (settings (now c)) * 60 /\
  timerState (now (run handleTimerFinish c)) <> PAUSED /\
  activeTask (now (run handleTimerFinish c)) = activeTask (now c) /\
  settings (now (run handleTimerFinish c)) = settings (now c).
Proof.
  intros Sy. unfold run. destruct (mode (stateRef c)) eqn:M.
  - rewrite (TimerFacts.handleTimerFinish_pomo c M). rewrite Sy in *. simpl.
    rewrite M. repeat split.
    + intros E N. destruct (Z.rem _ 4 =? 0); discriminate.
    + intros N; congruence.
    + destruct (autoStartBreaks _); discriminate.
  - rewrite (TimerFacts.handleTimerFinish_break c) by congruence. rewrite Sy in *. simpl.
    rewrite M. repeat split; try discriminate.
    destruct (autoStartPomodoros _); discriminate.
  - rewrite (TimerFacts.handleTimerFinish_break c) by congruence. rewrite Sy in *. simpl.
    rewrite M. repeat split; try discriminate.
    destruct (autoStartPomodoros _); discriminate.
Qed.

Lemma finish_alternates_and_is_fresh_witness :
  let c := Samples.synchronized (Samples.viewOf 17 PAUSED short (Some Samples.email)) in
  (mode (now (run handleTimerFinish c)) = pomo <-> mode (now c) <> pomo) /\
  timeLeft (now (run handleTimerFinish c))
    = duration (mode (now (run handleTimerFinish c))) (settings (now c)) * 60 /\
  timerState (now (run handleTimerFinish c)) <> PAUSED /\
  activeTask (now (run handleTimerFinish c)) = activeTask (now c) /\
  settings (now (run handleTimerFinish c)) = settings (now c).
Proof.
  apply (finish_alternates_and_is_fresh
           (Samples.synchronized (Samples.viewOf 17 PAUSED short (Some Samples.email)))).
  reflexivity.
Defined.

Lemma commit_finish_pomo c :
  synced c -> mode (now c) = pomo ->
  now (fst (commit handleTimerFinish c)) =
    mkView (duration (if Z.rem (completedCount (activeTask (now c))) 4 =? 0
                      then long else short) (settings (now c)) * 60)
           (if autoStartBreaks (settings (now c)) then RUNNING else IDLE)
           (if Z.rem (completedCount (activeTask (now c))) 4 =? 0 then long else short)
           (activeTask (now c)) (settings (now c)).
Proof.
  intros Sy M. unfold commit, run. simpl.
  rewrite (TimerFacts.handleTimerFinish_pomo c) by (rewrite Sy; exact M).
  rewrite Sy. reflexivity.
Qed.

Lemma commit_finish_break c :
  synced c -> mode (now c) <> pomo ->
  now (fst (commit handleTimerFinish c)) =
    mkView (pomodoroDuration (settings (now c)) * 60)
           (if autoStartPomodoros (settings (now c)) then RUNNING else IDLE)
           pomo (activeTask (now c)) (settings (now c)).
Proof.
  intros Sy M. unfold commit, run. simpl.
  rewrite (TimerFacts.handleTimerFinish_break c) by (rewrite Sy; exact M).
  rewrite Sy. reflexivity.
Qed.

(** X3. The engine does not count by itself: unless the parent renders it
    with an updated task, the break chosen after a focus interval is chosen
    again after the next focus interval. *)
Theorem same_break_until_task_is_refreshed c :
  synced c ->
  mode (now c) = pomo ->
  let c1 := fst (commit skipTimer c) in
  let c2 := fst (commit skipTimer c1) in
  let c3 := fst (commit skipTimer c2) in
  mode (now c1) <> pomo /\
  mode (now c2) = pomo /\
  mode (now c3) = mode (now c1) /\
  timeLeft (now c3) = timeLeft (now c1).
Proof.
  intros Sy M c1 c2 c3.
  pose proof (commit_finish_pomo c Sy M) as E1.
  change (fst (commit handleTimerFinish c)) with c1 in E1.
  assert (S1 : synced c1) by reflexivity.
  assert (N1 : mode (now c1) <> pomo)
    by (rewrite E1; simpl; destruct (Z.rem _ 4 =? 0); discriminate).
  clearbody c1.
  pose proof (commit_finish_break c1 S1 N1) as E2.
  change (fst (commit handleTimerFinish c1)) with c2 in E2.
  assert (S2 : synced c2) by reflexivity.
  clearbody c2.
  assert (M2 : mode (now c2) = pomo) by (rewrite E2; reflexivity).
  pose proof (commit_finish_pomo c2 S2 M2) as E3.
  change (fst (commit handleTimerFinish c2)) with c3 in E3.
  clearbody c3.
  split; [exact N1|]. split; [exact M2|].
  rewrite E3, E2, E1. simpl. split; reflexivity.
Qed.

Lemma same_break_until_task_is_refreshed_witness :
  let c := Samples.synchronized (Samples.viewOf 1500 IDLE pomo (Some Samples.report)) in
  let c1 := fst (commit skipTimer c) in
  let c2 := fst (commit skipTimer c1) in
  let c3 := fst (commit skipTimer c2) in
  mode (now c1) <> pomo /\
  mode (now c2) = pomo /\
  mode (now c3) = mode (now c1) /\
  timeLeft (now c3) = timeLeft (now c1).
Proof.
  apply (same_break_until_task_is_refreshed
           (Samples.synchronized (Samples.viewOf 1500 IDLE pomo (Some Samples.report))));
    reflexivity.
Defined.

(** X4. [toggleTimer] touches the state only: the time left, the mode and
    the props stay, nothing is called, and the new state is never [IDLE].
    Two toggles bring a running or paused engine back to where it was; an
    idle engine ends up paused. *)
Theorem toggle_touches_state_only c :
  timeLeft (now (run toggleTimer c)) = timeLeft (now c) /\
  mode (now (run toggleTimer c)) = mode (now c) /\
  activeTask (now (run toggleTimer c)) = activeTask (now c) /\
  settings (now (run toggleTimer c)) = settings (now c) /\
  calls toggleTimer c = [] /\
  timerState (now (run toggleTimer c)) <> IDLE /\
  timerState (now (run toggleTimer (run toggleTimer c)))
    = match timerState (now c) with IDLE => PAUSED | st => st end.
Proof.
  repeat split; simpl.
  - destruct (timerState (now c)); discriminate.
  - destruct (timerState (now c)); reflexivity.
Qed.

(** X5. The caption of the button says what a click does: it reads "Pause"
    exactly when [toggleTimer] pauses, and "Start" exactly when it sets the
    engine running. *)
Theorem toggle_label_tells_the_effect c :
  (toggleLabel c = "Pause"%string <-> timerState (now (run toggleTimer c)) = PAUSED) /\
  (toggleLabel c = "Start"%string <-> timerState (now (run toggleTimer c)) = RUNNING).
Proof.
  unfold toggleLabel. simpl.
  destruct (timerState (now c)); simpl; repeat split; intros H;
    try reflexivity; discriminate.
Qed.

(** *** What the engine tells its parent over a whole run *)

Lemma handleTimerFinish_calls c :
  calls handleTimerFinish c = [PlayChime] \/
  exists t, calls handleTimerFinish c = [PlayChime; OnPomodoroComplete (id t)].
Proof.
  unfold calls. destruct (mode (stateRef c)) eqn:M.
  - rewrite (TimerFacts.handleTimerFinish_pomo c M). simpl.
    destruct (activeTask (stateRef c)) as [t|]; [right; exists t|left]; reflexivity.
  - rewrite (TimerFacts.handleTimerFinish_break c) by congruence. left; reflexivity.
  - rewrite (TimerFacts.handleTimerFinish_break c) by congruence. left; reflexivity.
Qed.

Lemma tick_calls c : calls tick c = [] \/ calls tick c = calls handleTimerFinish c.
Proof.
  unfold calls, tick, bind, readRef.
  destruct (TimerState_eqb (timerState (stateRef c)) RUNNING); [|left; reflexivity].
  destruct (timeLeft (stateRef c) <=? 1).
  - right. destruct (handleTimerFinish c) as [[[] c'] l]. reflexivity.
  - left. reflexivity.
Qed.

(** The calls of one event, counted: a task completion only for the
    "Complete Task" click, and no pomodoro completion without a chime. *)
Lemma dispatch_calls_counted e c c' l :
  dispatch e c = Some (c', l) ->
  List.length (filter isTaskComplete l) = (if isClickComplete e then 1 else 0)%nat /\
  (List.length (filter isPomodoroComplete l) <= List.length (filter isChime l))%nat.
Proof.
  destruct e; simpl; intros H.
  - inversion H; subst; clear H.
    destruct (tick_calls c) as [E|E]; rewrite E; [split; simpl; lia|].
    destruct (handleTimerFinish_calls c) as [E'|(t & E')]; rewrite E'; simpl; lia.
  - destruct (activeTask (now c)); inversion H; subst. simpl. lia.
  - destruct (activeTask (now c)); inversion H; subst; clear H.
    destruct (handleTimerFinish_calls c) as [E'|(t' & E')];
      unfold skipTimer; rewrite E'; simpl; lia.
  - destruct (activeTask (now c)); inversion H; subst. simpl. lia.
  - inversion H; subst. simpl. lia.
Qed.

(** X6. Over any run, [onTaskComplete] is called once per click on
    "Complete Task" and never by the engine itself (ticks, skips, toggles
    and renders call it zero times), and [onPomodoroComplete] is never
    called more often than the chime is played. *)
Theorem run_calls_accounted es : forall c c' l,
  runEvents es c = Some (c', l) ->
  List.length (filter isTaskComplete l) = List.length (filter isClickComplete es) /\
  (List.length (filter isPomodoroComplete l) <= List.length (filter isChime l))%nat.
Proof.
  induction es as [|e es IH]; intros c c' l R; simpl in R.
  - inversion R; subst. simpl. lia.
  - destruct (dispatch e c) as [[c1 l1]|] eqn:D; [|discriminate].
    destruct (runEvents es c1) as [[c2 l2]|] eqn:R'; [|discriminate].
    inversion R; subst; clear R.
    destruct (dispatch_calls_counted e c c1 l1 D) as (A & B).
    destruct (IH c1 c' l2 R') as (A' & B').
    rewrite !filter_app, !length_app. simpl.
    destruct (isClickComplete e); simpl; lia.
Qed.

Lemma run_calls_accounted_witness :
  let es := [ClickToggle; Tick; ClickSkip; ClickComplete; ClickSkip; ClickComplete] in
  let out := runEvents es (mount (Some Samples.report) Samples.settings25) in
  exists c' l,
    out = Some (c', l) /\
    List.length (filter isTaskComplete l) = 2%nat /\
    (List.length (filter isPomodoroComplete l) <= List.length (filter isChime l))%nat.
Proof.
  eexists. eexists. split; [reflexivity|].
  eapply (run_calls_accounted
            [ClickToggle; Tick; ClickSkip; ClickComplete; ClickSkip; ClickComplete]
            (mount (Some Samples.report) Samples.settings25)).
  reflexivity.
Defined.

(** X7. A render that keeps the task's id and [pomodoroDuration] does not
    disturb the interval (the same task with a new count, other break
    lengths, other flags), and the ref carries the new props, so that the
    next finish reads them. *)
Theorem refreshing_props_keeps_interval t0 t s c :
  activeTask (now c) = Some t0 ->
  id t = id t0 ->
  pomodoroDuration s = pomodoroDuration (settings (now c)) ->
  snapshot (receiveProps (Some t) s c) = snapshot c /\
  activeTask (stateRef (receiveProps (Some t) s c)) = Some t /\
  settings (stateRef (receiveProps (Some t) s c)) = s.
Proof.
  intros A I P. unfold receiveProps, resetDepsChanged, snapshot. simpl.
  rewrite A. simpl. rewrite I, String.eqb_refl, P, Z.eqb_refl. simpl.
  repeat split.
Qed.

Lemma refreshing_props_keeps_interval_witness :
  let c := Samples.synchronized (Samples.viewOf 200 RUNNING long (Some Samples.report)) in
  let t := mkTask "t1" "Write report" 4 4 in
  snapshot (receiveProps (Some t) Samples.settingsShort1 c) = snapshot c /\
  activeTask (stateRef (receiveProps (Some t) Samples.settingsShort1 c)) = Some t /\
  settings (stateRef (receiveProps (Some t) Samples.settingsShort1 c)) = Samples.settingsShort1.
Proof.
  apply (refreshing_props_keeps_interval Samples.report
           (mkTask "t1" "Write report" 4 4) Samples.settingsShort1
           (Samples.synchronized (Samples.viewOf 200 RUNNING long (Some Samples.report))));
    reflexivity.
Defined.

(** X8. A render that changes [pomodoroDuration] while a task is active
    resets the engine, also in the middle of a break and for the same task:
    [IDLE], [pomo], and the new [pomodoroDuration * 60]. *)
Theorem new_pomodoroDuration_resets t s c :
  pomodoroDuration s <> pomodoroDuration (settings (now c)) ->
  snapshot (receiveProps (Some t) s c) = (pomodoroDuration s * 60, IDLE, pomo).
Proof.
  intros P. unfold snapshot. rewrite TimerFacts.receiveProps_now.
  unfold resetDepsChanged. simpl settings.
  destruct (Z.eqb_spec (pomodoroDuration (settings (now c))) (pomodoroDuration s)) as [E|E];
    [congruence|].
  rewrite andb_false_r. reflexivity.
Qed.

Lemma new_pomodoroDuration_resets_witness :
  let c := Samples.synchronized (Samples.viewOf 200 RUNNING long (Some Samples.report)) in
  snapshot (receiveProps (Some Samples.report) (mkSettings 50 5 15 true false) c)
    = (3000, IDLE, pomo).
Proof.
  apply (new_pomodoroDuration_resets Samples.report (mkSettings 50 5 15 true false)
           (Samples.synchronized (Samples.viewOf 200 RUNNING long (Some Samples.report)))).
  simpl. discriminate.
Defined.

(** X9. A component that never had an active task never runs: whatever
    ticks and task-less renders it receives, it stays [IDLE] in [pomo] with
    the seconds of its first [pomodoroDuration], and calls nothing. *)
Theorem never_active_never_runs s es : forall c c' l,
  synced c ->
  activeTask (now c) = None ->
  snapshot c = (pomodoroDuration s * 60, IDLE, pomo) ->
  Forall bringsNoTask es ->
  runEvents es c = Some (c', l) ->
  snapshot c' = (pomodoroDuration s * 60, IDLE, pomo) /\
  activeTask (now c') = None /\
  l = [].
Proof.
  induction es as [|e es IH]; intros c c' l Sy A Sn F R; simpl in R.
  - inversion R; subst. repeat split; assumption.
  - inversion F as [|? ? Fe Fes]; subst.
    destruct (dispatch e c) as [[c1 l1]|] eqn:D; [|discriminate].
    destruct (runEvents es c1) as [[c2 l2]|] eqn:R'; [|discriminate].
    inversion R; subst; clear R.
    assert (St : timerState (now c) <> RUNNING)
      by (unfold snapshot in Sn; inversion Sn as [[T S' M]]; rewrite S'; discriminate).
    assert (Step : synced c1 /\ activeTask (now c1) = None /\
                   snapshot c1 = (pomodoroDuration s * 60, IDLE, pomo) /\ l1 = []).
    { destruct e; simpl in D.
      - inversion D; subst; clear D. unfold commit, run, calls.
        rewrite (TimerFacts.tick_absorbed c Sy St). simpl.
        repeat split; assumption.
      - rewrite A in D. discriminate.
      - rewrite A in D. discriminate.
      - rewrite A in D. discriminate.
      - destruct t as [t|]; [contradiction|].
        inversion D; subst; clear D.
        split; [apply (TimerFacts.dispatch_synced (Props None s0) c _ []); reflexivity|].
        unfold snapshot in *. rewrite TimerFacts.receiveProps_now. simpl.
        repeat split; assumption. }
    destruct Step as (S1 & A1 & Sn1 & L1).
    destruct (IH c1 c' l2 S1 A1 Sn1 Fes R') as (X & Y & Z).
    subst. repeat split; assumption.
Qed.

Lemma never_active_never_runs_witness :
  exists c' l,
    runEvents [Tick; Props None Samples.settingsShort1; Tick; Tick]
              (mount None Samples.settings25) = Some (c', l) /\
    snapshot c' = (1500, IDLE, pomo) /\
    activeTask (now c') = None /\
    l = [].
Proof.
  eexists. eexists. split; [reflexivity|].
  eapply (never_active_never_runs Samples.settings25
            [Tick; Props None Samples.settingsShort1; Tick; Tick]
            (mount None Samples.settings25)).
  - reflexivity.
  - reflexivity.
  - reflexivity.
  - repeat constructor.
  - reflexivity.
Defined.

Lemma commit_handleTimerFinish_positive c :
  positiveInv c -> positiveInv (syncRef (run handleTimerFinish c)).
Proof.
  intros (Sy & OK & _).
  destruct (TimerFacts.handleTimerFinish_fresh c) as (T & E & _).
  split; [reflexivity|]. simpl. rewrite E, T, Sy. split; [exact OK|].
  destruct OK as (A & B & C).
  destruct (mode (now (run handleTimerFinish c))); simpl; lia.
Qed.

Lemma dispatch_positiveInv e c c' l :
  bringsGoodSettings e -> positiveInv c ->
  dispatch e c = Some (c', l) -> positiveInv c'.
Proof.
  intros G I H. pose proof I as (Sy & OK & N).
  destruct e; simpl in H.
  - inversion H; subst; clear H.
    destruct (TimerState_eqb (timerState (now c)) RUNNING) eqn:Erun.
    + assert (Run : timerState (now c) = RUNNING)
        by (destruct (timerState (now c)); simpl in Erun; congruence).
      destruct (Z.leb_spec (timeLeft (now c)) 1) as [L|L].
      * assert (E : tick c = handleTimerFinish c)
          by (apply TimerFacts.finishes_is_handleTimerFinish;
              [exact Sy | constructor; assumption]).
        unfold run. rewrite E. apply (commit_handleTimerFinish_positive c I).
      * unfold run. rewrite (TimerFacts.tick_decrements c Sy Run L).
        split; [reflexivity|]. simpl. split; [exact OK|lia].
    + assert (N' : timerState (now c) <> RUNNING)
        by (intro X; rewrite X in Erun; discriminate).
      unfold run. rewrite (TimerFacts.tick_absorbed c Sy N'). simpl.
      split; [reflexivity|]. split; assumption.
  - destruct (activeTask (now c)); [|discriminate].
    inversion H; subst; clear H.
    split; [reflexivity|]. simpl. split; assumption.
  - destruct (activeTask (now c)); [|discriminate].
    inversion H; subst; clear H. apply (commit_handleTimerFinish_positive c I).
  - destruct (activeTask (now c)); [|discriminate].
    inversion H; subst; clear H. simpl.
    split; [reflexivity|]. split; assumption.
  - inversion H; subst; clear H.
    assert (OK' : settings_ok s) by (apply G; reflexivity).
    split; [apply (TimerFacts.dispatch_synced (Props t s) c _ []); reflexivity|].
    rewrite TimerFacts.receiveProps_now.
    destruct OK' as (A & B & C).
    destruct t; [destruct (resetDepsChanged _ _)|]; simpl;
      (split; [repeat split; assumption|]); lia.
Qed.

Lemma reachable_positiveInv c : reachable c -> positiveInv c.
Proof.
  intros (t & s & es & l & OK & F & R).
  revert R. apply (TimerFacts.runEvents_preserves positiveInv bringsGoodSettings).
  - apply dispatch_positiveInv.
  - exact F.
  - split; [apply TimerFacts.mount_synced|]. rewrite TimerFacts.mount_now. simpl.
    split; [exact OK|]. destruct OK as (A & _). lia.
Qed.

(** X10. With positive durations the time left of a reachable component is
    at least one second, whatever the props do: a running interval is
    replaced by the next one on the tick that would bring it to zero. *)
Theorem reachable_timeLeft_at_least_one c :
  reachable c -> 1 <= timeLeft (now c).
Proof. intros R. exact (proj2 (proj2 (reachable_positiveInv c R))). Qed.

Lemma reachable_timeLeft_at_least_one_witness :
  1 <= timeLeft (now (Samples.synchronized (Samples.viewOf 1 RUNNING pomo (Some Samples.email)))).
Proof.
  apply (reachable_timeLeft_at_least_one
           (Samples.synchronized (Samples.viewOf 1 RUNNING pomo (Some Samples.email)))).
  exists (Some Samples.email), Samples.settings25,
    (ClickToggle :: repeat Tick 1499), [].
  split; [unfold settings_ok; simpl; lia|]. split.
  - apply Forall_cons; [intros s' E; discriminate|].
    apply Forall_forall. intros e In. apply repeat_spec in In. subst e.
    intros s' E; discriminate.
  - vm_compute. reflexivity.
Defined.

Lemma dispatch_idleFullInv s e c c' l :
  settings_ok s -> keepsDurations s e -> idleFullInv s c ->
  dispatch e c = Some (c', l) -> idleFullInv s c'.
Proof.
  intros OK K (I & Full) H.
  split; [exact (TimerFacts.dispatch_fixedDurationsInv s e c c' l OK K I H)|].
  destruct I as (Sy & D & _).
  destruct e; simpl in H.
  - inversion H; subst; clear H.
    destruct (TimerState_eqb (timerState (now c)) RUNNING) eqn:Erun.
    + assert (Run : timerState (now c) = RUNNING)
        by (destruct (timerState (now c)); simpl in Erun; congruence).
      destruct (Z.leb_spec (timeLeft (now c)) 1) as [L|L].
      * assert (E : tick c = handleTimerFinish c)
          by (apply TimerFacts.finishes_is_handleTimerFinish;
              [exact Sy | constructor; assumption]).
        unfold run. rewrite E. intros _. simpl.
        destruct (TimerFacts.handleTimerFinish_fresh c) as (T & E' & _).
        unfold run in T, E'. rewrite T, E', Sy. reflexivity.
      * unfold run. rewrite (TimerFacts.tick_decrements c Sy Run L). simpl.
        rewrite Run. discriminate.
    + assert (N' : timerState (now c) <> RUNNING)
        by (intro X; rewrite X in Erun; discriminate).
      unfold run. rewrite (TimerFacts.tick_absorbed c Sy N'). simpl. exact Full.
  - destruct (activeTask (now c)); [|discriminate].
    inversion H; subst; clear H. simpl.
    destruct (timerState (now c)); discriminate.
  - destruct (activeTask (now c)); [|discriminate].
    inversion H; subst; clear H. intros _. simpl.
    destruct (TimerFacts.handleTimerFinish_fresh c) as (T & E' & _).
    unfold skipTimer. rewrite T, E', Sy. reflexivity.
  - destruct (activeTask (now c)); [|discriminate].
    inversion H; subst; clear H. simpl. exact Full.
  - inversion H; subst; clear H. simpl in K.
    rewrite TimerFacts.receiveProps_now.
    pose proof (TimerFacts.sameDurations_duration s _ (mode (now c)) D) as E1.
    pose proof (TimerFacts.sameDurations_duration s _ (mode (now c)) K) as E2.
    destruct t; [destruct (resetDepsChanged _ _)|]; simpl; try reflexivity;
      intros Idle; rewrite (Full Idle); congruence.
Qed.

(** X11. While the props leave the three durations alone, an idle engine
    always stands at the full length of its mode: [IDLE] is only entered by
    mounting, by the reset and by a finish, and each of them sets the time
    to the mode's duration. *)
Theorem idle_engine_shows_full_interval t s es c l :
  settings_ok s ->
  Forall (keepsDurations s) es ->
  runEvents es (mount t s) = Some (c, l) ->
  timerState (now c) = IDLE ->
  timeLeft (now c) = duration (mode (now c)) (settings (now c)) * 60.
Proof.
  intros OK F R.
  assert (I : idleFullInv s c).
  { revert R. apply (TimerFacts.runEvents_preserves (idleFullInv s) (keepsDurations s)).
    - intros e c0 c1 l0 K I0 D. exact (dispatch_idleFullInv s e c0 c1 l0 OK K I0 D).
    - exact F.
    - split.
      + split; [apply TimerFacts.mount_synced|].
        unfold timeLeftInRange. rewrite TimerFacts.mount_now. simpl.
        split; [repeat split|]. destruct OK as (A & _). lia.
      + rewrite TimerFacts.mount_now. reflexivity. }
  exact (proj2 I).
Qed.

Lemma idle_engine_shows_full_interval_witness :
  let c := Samples.synchronized (Samples.viewOf 1500 IDLE pomo (Some Samples.email)) in
  timeLeft (now c) = duration (mode (now c)) (settings (now c)) * 60.
Proof.
  apply (idle_engine_shows_full_interval (Some Samples.email) Samples.settings25
           [ClickToggle; Tick; ClickSkip; Tick; ClickSkip]
           _ [PlayChime; OnPomodoroComplete (id Samples.email); PlayChime]).
  - unfold settings_ok; simpl; lia.
  - repeat constructor.
  - reflexivity.
  - reflexivity.
Defined.

(** One tick of a running engine whose two auto-start flags are set. *)
Lemma tick_keeps_auto_running c :
  synced c ->
  timerState (now c) = RUNNING ->
  autoStartBreaks (settings (now c)) = true ->
  autoStartPomodoros (settings (now c)) = true ->
  timerState (now (run tick c)) = RUNNING /\
  settings (now (run tick c)) = settings (now c).
Proof.
  intros Sy R B P.
  destruct (Z.leb_spec (timeLeft (now c)) 1) as [L|L].
  - assert (E : tick c = handleTimerFinish c)
      by (apply TimerFacts.finishes_is_handleTimerFinish;
          [exact Sy | constructor; assumption]).
    unfold run. rewrite E. destruct (mode (stateRef c)) eqn:M.
    + rewrite (TimerFacts.handleTimerFinish_pomo c M). simpl. rewrite Sy, B. split; reflexivity.
    + rewrite (TimerFacts.handleTimerFinish_break c) by congruence. simpl.
      rewrite Sy, P. split; reflexivity.
    + rewrite (TimerFacts.handleTimerFinish_break c) by congruence. simpl.
      rewrite Sy, P. split; reflexivity.
  - unfold run. rewrite (TimerFacts.tick_decrements c Sy R L). simpl. split; [exact R|reflexivity].
Qed.

(** X22. With both auto-start flags set, ticks alone never stop a running
    engine: after any number of ticks, through any number of interval
    changes, it is still [RUNNING]. *)
Theorem auto_start_chain_keeps_running k : forall c,
  synced c ->
  timerState (now c) = RUNNING ->
  autoStartBreaks (settings (now c)) = true ->
  autoStartPomodoros (settings (now c)) = true ->
  exists c' l,
    runEvents (repeat Tick k) c = Some (c', l) /\
    timerState (now c') = RUNNING.
Proof.
  induction k as [|k IH]; intros c Sy R B P.
  - exists c, []. split; [reflexivity | exact R].
  - destruct (tick_keeps_auto_running c Sy R B P) as (R1 & E1).
    destruct (IH (syncRef (run tick c))) as (c' & l & Run & R');
      try reflexivity; simpl; try assumption; try (rewrite E1; assumption).
    exists c', (calls tick c ++ l).
    change (repeat Tick (S k)) with (Tick :: repeat Tick k).
    cbn [runEvents dispatch]. unfold commit. rewrite Run. split; [reflexivity | exact R'].
Qed.

Lemma auto_start_chain_keeps_running_witness :
  let both := mkSettings 1 1 1 true true in
  let c := mkComponent (mkView 2 RUNNING pomo (Some Samples.email) both)
                       (mkView 2 RUNNING pomo (Some Samples.email) both) in
  exists c' l,
    runEvents (repeat Tick 200) c = Some (c', l) /\
    timerState (now c') = RUNNING.
Proof.
  apply (auto_start_chain_keeps_running 200
           (mkComponent (mkView 2 RUNNING pomo (Some Samples.email) (mkSettings 1 1 1 true true))
                        (mkView 2 RUNNING pomo (Some Samples.email) (mkSettings 1 1 1 true true))));
    reflexivity.
Defined.

Lemma syncRef_synced c : synced c -> syncRef c = c.
Proof. unfold synced, syncRef. destruct c as [v r]; simpl. intros ->. reflexivity. Qed.

(** Ticks of an engine that is not running change nothing. *)
Lemma ticks_absorbed k : forall c,
  synced c -> timerState (now c) <> RUNNING ->
  runEvents (repeat Tick k) c = Some (c, []).
Proof.
  induction k as [|k IH]; intros c Sy N; [reflexivity|].
  change (repeat Tick (S k)) with (Tick :: repeat Tick k).
  cbn [runEvents dispatch]. unfold commit, run, calls.
  rewrite (TimerFacts.tick_absorbed c Sy N). simpl.
  rewrite (syncRef_synced c Sy), (IH c Sy N). reflexivity.
Qed.

(** X23. A pause costs no time: pausing a running engine, letting any
    number of ticks pass and resuming gives the snapshot it had, with no
    call made. *)
Theorem pause_costs_no_time k c t :
  synced c ->
  activeTask (now c) = Some t ->
  timerState (now c) = RUNNING ->
  exists c',
    runEvents (ClickToggle :: repeat Tick k ++ [ClickToggle]) c = Some (c', []) /\
    snapshot c' = snapshot c /\
    activeTask (now c') = activeTask (now c) /\
    settings (now c') = settings (now c).
Proof.
  intros Sy A R.
  exists (syncRef (run toggleTimer (syncRef (run toggleTimer c)))).
  split.
  - cbn [runEvents dispatch]. rewrite A. unfold commit at 1.
    rewrite (runEvents_app (repeat Tick k) [ClickToggle]
               (syncRef (run toggleTimer c)) (syncRef (run toggleTimer c)) []).
    + cbn [runEvents dispatch]. simpl activeTask. rewrite A. reflexivity.
    + apply ticks_absorbed; [reflexivity|]. simpl. rewrite R. discriminate.
  - unfold snapshot. simpl. rewrite R. simpl. repeat split.
Qed.

Lemma pause_costs_no_time_witness :
  let c := Samples.synchronized (Samples.viewOf 640 RUNNING pomo (Some Samples.report)) in
  exists c',
    runEvents (ClickToggle :: repeat Tick 30 ++ [ClickToggle]) c = Some (c', []) /\
    snapshot c' = snapshot c /\
    activeTask (now c') = activeTask (now c) /\
    settings (now c') = settings (now c).
Proof.
  apply (pause_costs_no_time 30
           (Samples.synchronized (Samples.viewOf 640 RUNNING pomo (Some Samples.report)))
           Samples.report);
    reflexivity.
Defined.

End TimerMore.

(** ** The clock text: properties *)

Module DisplayFacts.
Import Timer TimerSpec TimerView MoreSpec.
Local Open Scope string_scope.

Lemma length_append (a b : string) :
  String.length (a ++ b) = (String.length a + String.length b)%nat.
Proof. induction a as [|x a IH]; simpl; [reflexivity | rewrite IH; reflexivity]. Qed.

Lemma hasColon_append (a b : string) : hasColon (a ++ b) = hasColon a || hasColon b.
Proof.
  induction a as [|x a IH]; simpl; [reflexivity|].
  rewrite IH. apply orb_assoc.
Qed.

Lemma beforeColon_append x y :
  hasColon x = false -> beforeColon (x ++ String ":" y) = x.
Proof.
  induction x as [|a x IH]; simpl; intros H; [reflexivity|].
  apply orb_false_iff in H. destruct H as (H1 & H2).
  rewrite H1, (IH H2). reflexivity.
Qed.

Lemma afterColon_append x y :
  hasColon x = false -> afterColon (x ++ String ":" y) = y.
Proof.
  induction x as [|a x IH]; simpl; intros H; [reflexivity|].
  apply orb_false_iff in H. destruct H as (H1 & H2).
  rewrite H1. exact (IH H2).
Qed.

(** The two-digit padding, by the length of its argument. *)
Lemma padStart2_cases s :
  padStart 2 "0" s =
    match s with
    | EmptyString => "00"
    | String a EmptyString => String "0" (String a EmptyString)
    | _ => s
    end.
Proof. destruct s as [|a [|b r]]; reflexivity. Qed.

Lemma digits_have_no_colon d : hasColon (NilEmpty.string_of_uint d) = false.
Proof. induction d; simpl; assumption || reflexivity. Qed.

Lemma toString_nonneg m :
  0 <= m -> exists d, toString m = NilEmpty.string_of_uint d /\ Z.of_uint d = m.
Proof.
  intros H. destruct m as [|p|p]; [| |lia].
  - exists (D0 Nil). split; reflexivity.
  - exists (Pos.to_uint p). split.
    + unfold toString. simpl.
      pose proof (DecimalPos.Unsigned.to_uint_nonnil p) as N.
      destruct (Pos.to_uint p); [congruence | reflexivity ..].
    + exact (DecimalZ.of_to (Z.pos p)).
Qed.

Lemma padded_has_no_colon m : 0 <= m -> hasColon (padStart 2 "0" (toString m)) = false.
Proof.
  intros H. destruct (toString_nonneg m H) as (d & E & _).
  rewrite padStart2_cases.
  pose proof (digits_have_no_colon d) as C. rewrite <- E in C.
  destruct (toString m) as [|a [|b r]]; simpl in *; try reflexivity; assumption.
Qed.

Lemma valueOf_padded m : 0 <= m -> valueOf (padStart 2 "0" (toString m)) = m.
Proof.
  intros H. destruct (toString_nonneg m H) as (d & E & V).
  assert (U : valueOf (toString m) = m).
  { unfold valueOf. rewrite E, NilEmpty.usu. exact V. }
  rewrite padStart2_cases.
  destruct (toString m) as [|a [|b r]]; try exact U.
  unfold valueOf in *. cbn [NilEmpty.uint_of_string] in *.
  destruct (uint_of_char a (Some Nil)); simpl; exact U.
Qed.

(** The text decodes to the seconds it was made from. *)
Lemma secondsShown_formatTimeDisplay seconds :
  0 <= seconds -> secondsShown (formatTimeDisplay seconds) = seconds.
Proof.
  intros H. unfold secondsShown, formatTimeDisplay.
  assert (M : 0 <= seconds / 60) by (apply Z.div_pos; lia).
  assert (R : 0 <= Z.rem seconds 60) by (apply Z.rem_nonneg; lia).
  change (":" ++ padStart 2 "0" (toString (Z.rem seconds 60)))
    with (String ":" (padStart 2 "0" (toString (Z.rem seconds 60)))).
  rewrite beforeColon_append, afterColon_append by (apply padded_has_no_colon; exact M).
  rewrite !valueOf_padded by assumption.
  rewrite Z.rem_mod_nonneg by lia.
  pose proof (Z.div_mod seconds 60). lia.
Qed.

(** X12. The clock text determines the time: two different non-negative
    numbers of seconds are never shown alike. *)
Theorem formatTimeDisplay_injective a b :
  0 <= a -> 0 <= b ->
  formatTimeDisplay a = formatTimeDisplay b -> a = b.
Proof.
  intros A B E.
  rewrite <- (secondsShown_formatTimeDisplay a A), <- (secondsShown_formatTimeDisplay b B).
  rewrite E. reflexivity.
Qed.

Lemma formatTimeDisplay_injective_witness :
  formatTimeDisplay 75 = "01:15" /\ 75 = 75.
Proof.
  split; [reflexivity|].
  apply (formatTimeDisplay_injective 75 75); [lia | lia | reflexivity].
Defined.

Lemma length_digits d : String.length (NilEmpty.string_of_uint d) = nb_digits d.
Proof. induction d; simpl; congruence. Qed.

Lemma two_digits_below_100 d : (nb_digits d <= 2)%nat -> Z.of_uint d < 100.
Proof.
  intros H.
  destruct d as [|d|d|d|d|d|d|d|d|d|d]; [reflexivity|..];
    (destruct d as [|d|d|d|d|d|d|d|d|d|d]; [reflexivity|..]);
    (destruct d as [|d|d|d|d|d|d|d|d|d|d]; [reflexivity|..]);
    simpl in H; lia.
Qed.

(** Up to 99 the padded number has two characters; from 100 on it has its
    own three or more. *)
Lemma length_padded m :
  0 <= m ->
  (m < 100 -> String.length (padStart 2 "0" (toString m)) = 2%nat) /\
  (100 <= m -> (3 <= String.length (padStart 2 "0" (toString m)))%nat).
Proof.
  intros H. split.
  - intros L.
    assert (E : m = Z.of_nat (Z.to_nat m)) by lia. rewrite E.
    assert (B : (Z.to_nat m < 100)%nat) by lia.
    assert (All : forallb (fun n => Nat.eqb (String.length (padStart 2 "0" (toString (Z.of_nat n)))) 2)
                          (seq 0 100) = true) by (vm_compute; reflexivity).
    rewrite forallb_forall in All.
    apply Nat.eqb_eq, All, in_seq. lia.
  - intros L. destruct (toString_nonneg m H) as (d & E & V).
    assert (N : (3 <= String.length (toString m))%nat).
    { rewrite E, length_digits.
      destruct (Nat.le_gt_cases 3 (nb_digits d)) as [G|G]; [exact G|].
      assert (Z.of_uint d < 100) by (apply two_digits_below_100; lia). lia. }
    unfold padStart.
    destruct (Nat.leb_spec 2 (String.length (toString m))); [exact N | lia].
Qed.

(** The text is the padded minutes, the colon and two characters. *)
Lemma length_formatTimeDisplay seconds :
  0 <= seconds ->
  String.length (formatTimeDisplay seconds)
    = (String.length (padStart 2 "0" (toString (seconds / 60))) + 3)%nat.
Proof.
  intros H. unfold formatTimeDisplay. rewrite !length_append.
  assert (R : 0 <= Z.rem seconds 60 < 60).
  { rewrite Z.rem_mod_nonneg by lia. apply Z.mod_pos_bound. lia. }
  destruct (length_padded (Z.rem seconds 60) (proj1 R)) as (S2 & _).
  rewrite (S2 ltac:(lia)). reflexivity.
Qed.

(** X13. The clock text has the five characters of [MM:SS] exactly up to
    99 minutes 59 seconds; from 6000 seconds on the minutes take their three
    or more digits and the text is longer. *)
Theorem formatTimeDisplay_length seconds :
  0 <= seconds ->
  (seconds < 6000 -> String.length (formatTimeDisplay seconds) = 5%nat) /\
  (6000 <= seconds -> (6 <= String.length (formatTimeDisplay seconds))%nat).
Proof.
  intros H. rewrite (length_formatTimeDisplay seconds H).
  assert (M : 0 <= seconds / 60) by (apply Z.div_pos; lia).
  destruct (length_padded (seconds / 60) M) as (M2 & M3).
  split; intros L.
  - rewrite M2; [reflexivity|]. apply Z.div_lt_upper_bound; lia.
  - assert (B : 100 <= seconds / 60) by (apply Z.div_le_lower_bound; lia).
    specialize (M3 B). lia.
Qed.

Lemma formatTimeDisplay_length_witness :
  String.length (formatTimeDisplay 5999) = 5%nat /\
  (6 <= String.length (formatTimeDisplay 6000))%nat.
Proof.
  split.
  - apply (proj1 (formatTimeDisplay_length 5999 ltac:(lia))). lia.
  - apply (proj2 (formatTimeDisplay_length 6000 ltac:(lia))). lia.
Defined.

(** X14. A reachable component never shows [00:00]: the time left is at
    least a second, and only zero is shown as [00:00]. *)
Theorem reachable_clock_never_zero c :
  reachable c -> clockText c <> "00:00".
Proof.
  intros R E. unfold clockText in E.
  pose proof (proj2 (proj2 (TimerMore.reachable_positiveInv c R))) as P.
  assert (Z0 : timeLeft (now c) = 0).
  { rewrite <- (secondsShown_formatTimeDisplay (timeLeft (now c))) by lia.
    rewrite E. reflexivity. }
  lia.
Qed.

Lemma reachable_clock_never_zero_witness :
  clockText (Samples.synchronized (Samples.viewOf 1 RUNNING pomo (Some Samples.email)))
    <> "00:00".
Proof.
  apply (reachable_clock_never_zero
           (Samples.synchronized (Samples.viewOf 1 RUNNING pomo (Some Samples.email)))).
  exists (Some Samples.email), Samples.settings25,
    (ClickToggle :: repeat Tick 1499), [].
  split; [unfold settings_ok; simpl; lia|]. split.
  - apply Forall_cons; [intros s' E; discriminate|].
    apply Forall_forall. intros e In. apply repeat_spec in In. subst e.
    intros s' E; discriminate.
  - vm_compute. reflexivity.
Defined.

(** X15. With durations of at most 99 minutes that the props leave alone,
    the clock of the component always has the five characters of [MM:SS]. *)
Theorem clock_has_five_characters t s es c l :
  settings_ok s ->
  pomodoroDuration s <= 99 /\ shortBreakDuration s <= 99 /\ longBreakDuration s <= 99 ->
  Forall (keepsDurations s) es ->
  runEvents es (mount t s) = Some (c, l) ->
  String.length (clockText c) = 5%nat.
Proof.
  intros OK (Bp & Bs & Bl) F R.
  assert (I : fixedDurationsInv s c).
  { revert R. apply (TimerFacts.runEvents_preserves (fixedDurationsInv s) (keepsDurations s)).
    - intros e c0 c1 l0 K I0 D.
      exact (TimerFacts.dispatch_fixedDurationsInv s e c0 c1 l0 OK K I0 D).
    - exact F.
    - split; [apply TimerFacts.mount_synced|].
      unfold timeLeftInRange. rewrite TimerFacts.mount_now. simpl.
      split; [repeat split|]. destruct OK as (A & _). lia. }
  destruct I as (_ & D & (Lo & Hi)).
  rewrite (TimerFacts.sameDurations_duration s _ _ D) in Hi.
  unfold clockText. rewrite (length_formatTimeDisplay (timeLeft (now c)) Lo).
  assert (M : 0 <= timeLeft (now c) / 60) by (apply Z.div_pos; lia).
  rewrite (proj1 (length_padded (timeLeft (now c) / 60) M)); [reflexivity|].
  apply Z.div_lt_upper_bound; [lia|].
  destruct (mode (now c)); simpl in Hi; lia.
Qed.

Lemma clock_has_five_characters_witness :
  let c := mkComponent (mkView 299 RUNNING short (Some Samples.email) Samples.settings25)
                       (mkView 299 RUNNING short (Some Samples.email) Samples.settings25) in
  String.length (clockText c) = 5%nat.
Proof.
  apply (clock_has_five_characters (Some Samples.email) Samples.settings25
           [ClickSkip; Props (Some Samples.email) Samples.settings25; Tick]
           _ [PlayChime; OnPomodoroComplete (id Samples.email)]).
  - unfold settings_ok; simpl; lia.
  - simpl; lia.
  - repeat constructor.
  - reflexivity.
Defined.

End DisplayFacts.

(** ** The plan-extraction client: further properties *)

Module PlanMore.
Import Plan PlanSpec MoreSpec.
Local Open Scope string_scope.
Local Open Scope eff_scope.

Lemma stringOr_empty_default (t : option string) d :
  t = None \/ t = Some "" -> stringOr t d = d.
Proof. intros [->| ->]; reflexivity. Qed.

(** The outcome with a credential, by what the call and the parser do. *)
Lemma parse_with_credential_cases w input baseTime k :
  API_KEY w = Some k -> missing (API_KEY w) = false ->
  parseNaturalLanguagePlan w input baseTime =
    match generateContent w (sentRequest w k input baseTime) with
    | Throws e =>
        (Returns noTasks,
         [ExternalCall (sentRequest w k input baseTime);
          ConsoleError "Gemini API Error:" e])
    | Returns response =>
        match JSON_parse w (stringOr (text response) "{}") with
        | Throws e =>
            (Returns noTasks,
             [ExternalCall (sentRequest w k input baseTime);
              ConsoleError "Gemini API Error:" e])
        | Returns JNull =>
            (Returns noTasks,
             [ExternalCall (sentRequest w k input baseTime);
              ConsoleError "Gemini API Error:" (TypeError "Cannot read properties of null")])
        | Returns v =>
            (Returns (mkAIResponse (valueOr (tasksOf v) (JArray []))),
             [ExternalCall (sentRequest w k input baseTime)])
        end
    end.
Proof.
  intros K M. rewrite (PlanFacts.parse_with_credential w input baseTime k K M).
  unfold callModel. simpl.
  destruct (generateContent w (sentRequest w k input baseTime)) as [response|e];
    [|reflexivity].
  simpl. destruct (JSON_parse w (stringOr (text response) "{}")) as [v|e];
    [|reflexivity].
  destruct v; reflexivity.
Qed.

Lemma truthy_valueOr v : truthy (Some (valueOr v (JArray []))) = true.
Proof.
  destruct v as [x|]; [|reflexivity]. unfold valueOr.
  destruct (truthy (Some x)) eqn:T; [exact T | reflexivity].
Qed.

(** X16. One attempt, and every failure logged once: the trace of a call is
    the warning alone (no credential), or the one external request alone
    (success), or the one external request followed by one error message
    (failure), in which case the result is [{tasks: []}].  The function
    never retries and never warns and calls. *)
Theorem one_attempt_and_logged_failures w input baseTime :
  (missing (API_KEY w) = true /\
   parseNaturalLanguagePlan w input baseTime =
     (Returns noTasks, [ConsoleWarn "API_KEY not found in environment variables"])) \/
  (exists k r,
     API_KEY w = Some k /\
     parseNaturalLanguagePlan w input baseTime =
       (Returns r, [ExternalCall (sentRequest w k input baseTime)])) \/
  (exists k e,
     API_KEY w = Some k /\
     parseNaturalLanguagePlan w input baseTime =
       (Returns noTasks,
        [ExternalCall (sentRequest w k input baseTime);
         ConsoleError "Gemini API Error:" e])).
Proof.
  destruct (missing (API_KEY w)) eqn:M.
  - left. split; [reflexivity|]. exact (PlanFacts.parse_without_credential w input baseTime M).
  - right. destruct (API_KEY w) as [k|] eqn:K; [|discriminate].
    rewrite (parse_with_credential_cases w input baseTime k K) by (rewrite K; exact M).
    destruct (generateContent w (sentRequest w k input baseTime)) as [response|e].
    + destruct (JSON_parse w (stringOr (text response) "{}")) as [v|e].
      * destruct v;
          try (left; exists k; eexists; split; reflexivity).
        right. exists k; eexists; split; reflexivity.
      * right. exists k, e. split; reflexivity.
    + right. exists k, e. split; reflexivity.
Qed.

(** X17. Whatever the service answers, the [tasks] of the result is truthy:
    never [undefined], [null], [false], [0] or the empty string.  (It need
    not be an array: any other parsed value passes.) *)
Theorem result_tasks_always_truthy w input baseTime r :
  settled (parseNaturalLanguagePlan w input baseTime) = Returns r ->
  truthy (Some (tasks r)) = true.
Proof.
  destruct (missing (API_KEY w)) eqn:M.
  - rewrite (PlanFacts.parse_without_credential w input baseTime M).
    intros E; inversion E; reflexivity.
  - destruct (API_KEY w) as [k|] eqn:K; [|discriminate].
    rewrite (parse_with_credential_cases w input baseTime k K) by (rewrite K; exact M).
    destruct (generateContent w (sentRequest w k input baseTime)) as [response|e];
      [|intros E; inversion E; reflexivity].
    destruct (JSON_parse w (stringOr (text response) "{}")) as [v|e];
      [|intros E; inversion E; reflexivity].
    destruct v; intros E; inversion E; simpl; try reflexivity.
    apply truthy_valueOr.
Qed.

Lemma result_tasks_always_truthy_witness :
  truthy (Some (tasks (mkAIResponse PlanSamples.looseTasks))) = true /\
  truthy (Some (tasks noTasks)) = true.
Proof.
  split.
  - apply (result_tasks_always_truthy PlanSamples.answering "lunch then gym" 0). reflexivity.
  - apply (result_tasks_always_truthy PlanSamples.garbled "lunch then gym" 0). reflexivity.
Defined.

(** X18. A body that parses to a value other than [null] whose [tasks] is
    absent or falsy (an object with [tasks: null], a number, a string, an
    array) gives [{tasks: []}] silently: no error is logged. *)
Theorem falsy_tasks_give_empty_silently w input baseTime k response v :
  API_KEY w = Some k ->
  missing (API_KEY w) = false ->
  generateContent w (sentRequest w k input baseTime) = Returns response ->
  JSON_parse w (stringOr (text response) "{}") = Returns v ->
  v <> JNull ->
  truthy (tasksOf v) = false ->
  parseNaturalLanguagePlan w input baseTime =
    (Returns noTasks, [ExternalCall (sentRequest w k input baseTime)]).
Proof.
  intros K M G P N T.
  rewrite (parse_with_credential_cases w input baseTime k K M), G, P.
  assert (V : valueOr (tasksOf v) (JArray []) = JArray []).
  { unfold valueOr. destruct (tasksOf v) as [x|]; [rewrite T|]; reflexivity. }
  destruct v; try congruence; rewrite V; reflexivity.
Qed.

Lemma falsy_tasks_give_empty_silently_witness :
  parseNaturalLanguagePlan PlanSamples.nullTasks "lunch then gym" 0 =
    (Returns noTasks, [ExternalCall (sentRequest PlanSamples.nullTasks "k" "lunch then gym" 0)]).
Proof.
  apply (falsy_tasks_give_empty_silently PlanSamples.nullTasks "lunch then gym" 0 "k"
           (mkResponse (Some "NULLTASKS")) (JObject [("tasks", JNull)]));
    try reflexivity.
  discriminate.
Defined.

(** X19. A body that parses to [null] is the one parsed value that takes
    the error path: reading [tasks] throws, the [TypeError] is logged, and
    the result is [{tasks: []}]. *)
Theorem null_body_logs_type_error w input baseTime k response :
  API_KEY w = Some k ->
  missing (API_KEY w) = false ->
  generateContent w (sentRequest w k input baseTime) = Returns response ->
  JSON_parse w (stringOr (text response) "{}") = Returns JNull ->
  parseNaturalLanguagePlan w input baseTime =
    (Returns noTasks,
     [ExternalCall (sentRequest w k input baseTime);
      ConsoleError "Gemini API Error:" (TypeError "Cannot read properties of null")]).
Proof.
  intros K M G P.
  rewrite (parse_with_credential_cases w input baseTime k K M), G, P. reflexivity.
Qed.

Lemma null_body_logs_type_error_witness :
  parseNaturalLanguagePlan PlanSamples.nullBody "lunch then gym" 0 =
    (Returns noTasks,
     [ExternalCall (sentRequest PlanSamples.nullBody "k" "lunch then gym" 0);
      ConsoleError "Gemini API Error:" (TypeError "Cannot read properties of null")]).
Proof.
  apply (null_body_logs_type_error PlanSamples.nullBody "lunch then gym" 0 "k"
           (mkResponse (Some "null")));
    reflexivity.
Defined.

(** X20. The error that is logged is the one that was thrown, by the call
    or by [JSON.parse], and it is logged after the request went out. *)
Theorem thrown_error_is_logged w input baseTime k e :
  API_KEY w = Some k ->
  missing (API_KEY w) = false ->
  generateContent w (sentRequest w k input baseTime) = Throws e \/
  (exists response,
     generateContent w (sentRequest w k input baseTime) = Returns response /\
     JSON_parse w (stringOr (text response) "{}") = Throws e) ->
  parseNaturalLanguagePlan w input baseTime =
    (Returns noTasks,
     [ExternalCall (sentRequest w k input baseTime);
      ConsoleError "Gemini API Error:" e]).
Proof.
  intros K M [G|(response & G & P)];
    rewrite (parse_with_credential_cases w input baseTime k K M), G;
    [|rewrite P]; reflexivity.
Qed.

Lemma thrown_error_is_logged_witness :
  parseNaturalLanguagePlan PlanSamples.offline "lunch then gym" 0 =
    (Returns noTasks,
     [ExternalCall (sentRequest PlanSamples.offline "k" "lunch then gym" 0);
      ConsoleError "Gemini API Error:" (ApiError "503")]) /\
  parseNaturalLanguagePlan PlanSamples.garbled "lunch then gym" 0 =
    (Returns noTasks,
     [ExternalCall (sentRequest PlanSamples.garbled "k" "lunch then gym" 0);
      ConsoleError "Gemini API Error:" (SyntaxError "Unexpected token")]).
Proof.
  split.
  - apply (thrown_error_is_logged PlanSamples.offline "lunch then gym" 0 "k" (ApiError "503"));
      [reflexivity | reflexivity | left; reflexivity].
  - apply (thrown_error_is_logged PlanSamples.garbled "lunch then gym" 0 "k"
             (SyntaxError "Unexpected token"));
      [reflexivity | reflexivity |].
    right. exists (mkResponse (Some "<html>")). split; reflexivity.
Defined.

(** X21. A response without text, or with the empty text, is parsed as the
    text of an empty object (the default of line 60): where [JSON.parse]
    reads that as the empty object, the result is [{tasks: []}] and nothing
    is logged. *)
Theorem empty_body_gives_empty_silently w input baseTime k response :
  API_KEY w = Some k ->
  missing (API_KEY w) = false ->
  generateContent w (sentRequest w k input baseTime) = Returns response ->
  text response = None \/ text response = Some "" ->
  JSON_parse w "{}" = Returns (JObject []) ->
  parseNaturalLanguagePlan w input baseTime =
    (Returns noTasks, [ExternalCall (sentRequest w k input baseTime)]).
Proof.
  intros K M G T P.
  rewrite (parse_with_credential_cases w input baseTime k K M), G.
  rewrite (stringOr_empty_default (text response) "{}" T), P. reflexivity.
Qed.

Lemma empty_body_gives_empty_silently_witness :
  parseNaturalLanguagePlan PlanSamples.silent "lunch then gym" 0 =
    (Returns noTasks, [ExternalCall (sentRequest PlanSamples.silent "k" "lunch then gym" 0)]).
Proof.
  apply (empty_body_gives_empty_silently PlanSamples.silent "lunch then gym" 0 "k"
           (mkResponse None));
    try reflexivity.
  left. reflexivity.
Defined.

End PlanMore.
